(** * box-gen: a parametric box and lid generator

    A shallow embedding of [main.py].  The script reads six dimensions from
    the command line, builds two solids (a box base and a lid) as boolean
    differences of axis-aligned boxes, exports both as STL meshes into a
    temporary directory, writes a README next to them, packs the three files
    into [archive/box_{L}x{W}x{H}.tar.gz] and moves them into [archive/].

    Numbers are Python floats, that is IEEE 754 binary64 values: they are
    embedded as Rocq's primitive [float]s, whose operations round exactly as
    Python's do.  The file system, the standard output and the exceptions are
    explicit: a command is a function from a [state] to an [outcome]. *)

From Stdlib Require Import ZArith Lia Bool Floats Ascii String.
From stdpp Require Import gmap strings pretty.

#[local] Set Warnings "-inexact-float,-register-all".
#[local] Open Scope Z_scope.

(* ================================================================= *)
(** * Part I: the program *)

(* ----------------------------------------------------------------- *)
(** ** Solids

    [trimesh.creation.box(extents)] builds an axis-aligned box centred on
    the origin; [m.apply_translation(v)] moves a mesh; [a.difference(b)] asks
    the boolean engine for [a] minus [b].  A mesh is the term built from
    these three calls.  Its vertices are binary64 numbers, and so is every
    step that places them. *)

Definition vec3 : Type := float * float * float.

Inductive mesh : Type :=
| box (extents : vec3)
| apply_translation (m : mesh) (translation : vec3)
| difference (a b : mesh).

(** Two opposite corners of a mesh, the one with the least and the one with
    the greatest coordinates when the extents are positive.  The box is made
    from the unit cube with its vertices at -0.5 and 0.5, scaled by the
    extents; a translation is added to every vertex, coordinate by
    coordinate, and the sum is rounded (this is where the vertices are as
    long as their coordinates are finite); a difference is placed where its
    first operand is. *)
Fixpoint corners (m : mesh) : vec3 * vec3 :=
  match m with
  | box (ex, ey, ez) =>
      ((-0.5 * ex, -0.5 * ey, -0.5 * ez), (0.5 * ex, 0.5 * ey, 0.5 * ez))%float
  | apply_translation m' (dx, dy, dz) =>
      let '((x1, y1, z1), (x2, y2, z2)) := corners m' in
      ((x1 + dx, y1 + dy, z1 + dz), (x2 + dx, y2 + dy, z2 + dz))%float
  | difference a _ => corners a
  end.

(** The centre of a mesh: the origin for a fresh box, which is created
    there; for a translated mesh the midpoint of its two corners, where the
    vertices are after the translation; a difference is placed where its
    first operand is. *)
Fixpoint centre (m : mesh) : vec3 :=
  match m with
  | box _ => (0, 0, 0)%float
  | apply_translation _ _ =>
      let '((x1, y1, z1), (x2, y2, z2)) := corners m in
      ((x1 + x2) / 2, (y1 + y2) / 2, (z1 + z2) / 2)%float
  | difference a _ => centre a
  end.

(** [inner] is horizontally centred within [outer] when their centres agree
    on the two horizontal axes (float equality, so [-0.0] is [0.0]). *)
Definition horizontally_centred (outer inner : mesh) : bool :=
  let '(ox, oy, _) := centre outer in
  let '(ix, iy, _) := centre inner in
  (ix =? ox)%float && (iy =? oy)%float.

(** The local variables of [create_full_box_with_lid] that hold dimensions
    and boxes, one definition per assignment, in source order. *)
Section Dimensions.
#[local] Open Scope float_scope.
Variables internal_length internal_width internal_height : float.
Variables wall_thickness lid_overlap lid_height : float.

Definition external_length : float := internal_length + 2 * wall_thickness.
Definition external_width : float := internal_width + 2 * wall_thickness.
Definition base_height : float := internal_height + wall_thickness.

Definition base_outer : mesh := box (external_length, external_width, base_height).
Definition base_inner : mesh :=
  apply_translation (box (internal_length, internal_width, internal_height))
    (wall_thickness - 2, wall_thickness - 2, wall_thickness / 2).

Definition lid_external_length : float := external_length + 2 * lid_overlap.
Definition lid_external_width : float := external_width + 2 * lid_overlap.
Definition lid_total_height : float := lid_height.

Definition lid_outer : mesh :=
  box (lid_external_length, lid_external_width, lid_total_height).

Definition lid_inner_length : float := external_length + 0.15.
Definition lid_inner_width : float := external_width + 0.15.
Definition lid_inner_height : float := lid_height - wall_thickness / 2.

Definition lid_inner : mesh :=
  apply_translation (box (lid_inner_length, lid_inner_width, lid_inner_height))
    (lid_overlap - 2, lid_overlap - 2, wall_thickness / 2).
End Dimensions.

(* ----------------------------------------------------------------- *)
(** ** Paths ([os.path] on POSIX) *)

Definition is_sep (c : ascii) : bool := Ascii.eqb c "/".

Fixpoint contains_sep (p : string) : bool :=
  match p with
  | EmptyString => false
  | String c r => is_sep c || contains_sep r
  end.

Definition startswith_sep (p : string) : bool :=
  match p with
  | String c _ => is_sep c
  | EmptyString => false
  end.

Fixpoint endswith_sep (p : string) : bool :=
  match p with
  | EmptyString => false
  | String c EmptyString => is_sep c
  | String _ r => endswith_sep r
  end.

Fixpoint all_sep (p : string) : bool :=
  match p with
  | EmptyString => true
  | String c r => is_sep c && all_sep r
  end.

(** [p.rstrip('/')] *)
Fixpoint rstrip_sep (p : string) : string :=
  match p with
  | EmptyString => EmptyString
  | String c r =>
      match rstrip_sep r with
      | EmptyString => if is_sep c then EmptyString else String c EmptyString
      | r' => String c r'
      end
  end.

(** [os.path.join(a, b)] *)
Definition join (a b : string) : string :=
  if startswith_sep b then b
  else match a with
       | EmptyString => b
       | _ => if endswith_sep a then a +:+ b else a +:+ "/" +:+ b
       end.

(** [(p[:i], p[i:])] for [i = p.rfind('/') + 1] *)
Fixpoint split_last (p : string) : string * string :=
  match p with
  | EmptyString => (EmptyString, EmptyString)
  | String c r =>
      let '(h, t) := split_last r in
      if contains_sep r then (String c h, t)
      else if is_sep c then (String c EmptyString, r)
      else (EmptyString, p)
  end.

(** [os.path.basename(p)] *)
Definition basename (p : string) : string := snd (split_last p).

(** [os.path.dirname(p)] *)
Definition dirname (p : string) : string :=
  let h := fst (split_last p) in
  if all_sep h then h else rstrip_sep h.

(* ----------------------------------------------------------------- *)
(** ** The world: files, directories, standard output *)

(** What a file holds: an exported mesh, text, or a gzip-compressed tar
    archive, given by its members in order, each under its archive name. *)
Inductive file : Type :=
| Stl (solid : mesh)
| Text (contents : string)
| TarGz (members : list (string * file)).

Record state : Type := State {
  files : gmap string file;
  dirs : gset string;
  stdout : list string
}.

Definition set_files (f : gmap string file → gmap string file) (s : state) : state :=
  State (f (files s)) (dirs s) (stdout s).

Inductive exn : Type :=
| OSError (path : string)       (* FileNotFoundError, NotADirectoryError, ... *)
| ShutilError (path : string)   (* shutil.Error: destination already exists *)
| EngineError.                  (* the boolean engine failed *)

Inductive outcome (A : Type) : Type :=
| Ok (a : A) (s : state)
| Raise (e : exn) (s : state).
Arguments Ok {A} a s.
Arguments Raise {A} e s.

Definition M (A : Type) : Type := state → outcome A.

Definition ret {A} (a : A) : M A := λ s, Ok a s.

Definition bind {A B} (c : M A) (k : A → M B) : M B :=
  λ s, match c s with
       | Ok a s' => k a s'
       | Raise e s' => Raise e s'
       end.

Notation "x <- c ;; k" := (bind c (λ x, k))
  (at level 100, c at next level, right associativity).
Notation "c ;; k" := (bind c (λ _, k))
  (at level 100, right associativity).

Fixpoint for_each {A} (l : list A) (body : A → M unit) : M unit :=
  match l with
  | [] => ret tt
  | x :: l' => body x ;; for_each l' body
  end.

(** [print(line)] *)
Definition print (line : string) : M unit :=
  λ s, Ok tt (State (files s) (dirs s) (stdout s ++ [line])).

(** [os.path.exists(p)] and [os.path.isdir(p)] *)
Definition os_path_exists (p : string) : M bool :=
  λ s, Ok (bool_decide (p ∈ dirs s) || bool_decide (is_Some (files s !! p))) s.

Definition os_path_isdir (p : string) : M bool :=
  λ s, Ok (bool_decide (p ∈ dirs s)) s.

(** [os.makedirs(p)], for the single-component paths the script uses. *)
Definition os_makedirs (p : string) : M unit :=
  λ s, if bool_decide (p ∈ dirs s) || bool_decide (is_Some (files s !! p))
       then Raise (OSError p) s
       else Ok tt (State (files s) ({[p]} ∪ dirs s) (stdout s)).

(** A file can be created at [p] when [p] is not a directory and its parent
    directory exists (the working directory always does). *)
Definition creatable (p : string) (s : state) : bool :=
  negb (bool_decide (p ∈ dirs s)) &&
  (bool_decide (dirname p = EmptyString) || bool_decide (dirname p ∈ dirs s)).

Definition write_file (p : string) (f : file) : M unit :=
  λ s, if creatable p s then Ok tt (set_files <[p := f]> s) else Raise (OSError p) s.

(** [open(p, 'w')] and [handle.write(text)] on the handle opened at [p]. *)
Definition open_w (p : string) : M unit := write_file p (Text EmptyString).

Definition write (p : string) (text : string) : M unit :=
  λ s, match files s !! p with
       | Some (Text t) => Ok tt (set_files <[p := Text (t +:+ text)]> s)
       | _ => Raise (OSError p) s
       end.

(** [m.export(p)] *)
Definition export (m : mesh) (p : string) : M unit := write_file p (Stl m).

(** [tarfile.open(p, "w:gz")] and [tar.add(name, arcname=...)] on the archive
    opened at [p], for [name] a regular file other than the archive itself.
    (A directory would be added with what it holds, and the archive itself
    skipped: neither is modelled, and the properties that list files are
    stated for regular files other than the archive.) *)
Definition tarfile_open (p : string) : M unit := write_file p (TarGz []).

Definition tar_add (tar name arcname : string) : M unit :=
  λ s, match files s !! name, files s !! tar with
       | Some f, Some (TarGz members) =>
           Ok tt (set_files <[tar := TarGz (members ++ [(arcname, f)])]> s)
       | _, _ => Raise (OSError name) s
       end.

(** [os.rename(src, dst)] for regular files. *)
Definition os_rename (src dst : string) : M unit :=
  λ s, match files s !! src with
       | Some f =>
           if creatable dst s
           then Ok tt (set_files (λ fs, <[dst := f]> (delete src fs)) s)
           else Raise (OSError dst) s
       | None => Raise (OSError src) s
       end.

(** [shutil.move(src, dst)]: into [dst] when it is a directory, and then
    never over an existing entry. *)
Definition shutil_move (src dst : string) : M unit :=
  isdir <- os_path_isdir dst ;;
  if isdir : bool then
    let real_dst := join dst (basename (rstrip_sep src)) in
    taken <- os_path_exists real_dst ;;
    if taken : bool then (λ s, Raise (ShutilError real_dst) s)
    else os_rename src real_dst
  else os_rename src dst.

(** [p.startswith(prefix)] *)
Fixpoint startswith (prefix p : string) : bool :=
  match prefix, p with
  | EmptyString, _ => true
  | String a prefix', String b p' => Ascii.eqb b a && startswith prefix' p'
  | String _ _, EmptyString => false
  end.

(** The last character of a path, if any. *)
Fixpoint last_char (p : string) : option ascii :=
  match p with
  | EmptyString => None
  | String c r => match last_char r with Some c' => Some c' | None => Some c end
  end.

(** [p] lies inside directory [d]. *)
Definition under (d p : string) : bool :=
  startswith (if endswith_sep d then d else d +:+ "/") p.

(** Removal of a directory with everything in it. *)
Definition rmtree (d : string) (s : state) : state :=
  State (filter (λ kv, under d kv.1 = false) (files s))
        (filter (λ p, p ≠ d ∧ under d p = false) (dirs s))
        (stdout s).

(** What a run does not control: the name [tempfile] picks for the scratch
    directory, and whether the boolean engine manages a difference. *)
Record env : Type := Env {
  mkdtemp : string;
  engine_ok : mesh → mesh → bool
}.

(** [with tempfile.TemporaryDirectory() as tmpdirname: body]: the directory
    is created, and removed again however [body] ends. *)
Definition with_TemporaryDirectory {A} (e : env) (body : string → M A) : M A :=
  λ s, let tmpdirname := mkdtemp e in
       match body tmpdirname (State (files s) ({[tmpdirname]} ∪ dirs s) (stdout s)) with
       | Ok a s' => Ok a (rmtree tmpdirname s')
       | Raise x s' => Raise x (rmtree tmpdirname s')
       end.

(** [a.difference(b)] *)
Definition mesh_difference (e : env) (a b : mesh) : M mesh :=
  λ s, if engine_ok e a b then Ok (difference a b) s else Raise EngineError s.

(* ----------------------------------------------------------------- *)
(** ** Command-line arguments *)

Module pargs.
Record t : Type := mk {
  length : option float;
  width : option float;
  height : option float;
  thickness : float;
  overlap : float;
  lid_height : float
}.
End pargs.

(** [Meta.arguments]: the three dimensions have no default, the three other
    options default to 2.0, 2.0 and 5.0. *)
Definition arguments (l w h t o lh : option float) : pargs.t :=
  pargs.mk l w h (default 2.0%float t) (default 2.0%float o) (default 5.0%float lh).

(* ----------------------------------------------------------------- *)
(** ** The script *)

Section Script.

(** Python's [repr] of a float (what an f-string interpolates): a builtin of
    the interpreter, not part of the repository. *)
Variable repr : float → string.

(** The line feed that ends a line of text. *)
Definition newline : string := String "010" EmptyString.

(** The pieces of an f-string: literal text and interpolated values. *)
Inductive fpart : Type :=
| lit (text : string)
| val (x : float)
| str (s : string).

Definition fpart_text (p : fpart) : string :=
  match p with
  | lit text => text
  | val x => repr x
  | str s => s
  end.

Fixpoint fstring (parts : list fpart) : string :=
  match parts with
  | [] => EmptyString
  | p :: parts' => fpart_text p +:+ fstring parts'
  end.

(** The float values an f-string interpolates, in order. *)
Definition interpolated (parts : list fpart) : list float :=
  omap (λ p, match p with val x => Some x | _ => None end) parts.

Definition create_tar_gz (output_filename : string) (files : list string) : M unit :=
  tarfile_open output_filename ;;
  for_each files (λ file, tar_add output_filename file (basename file)) ;;
  print (fstring [lit "Created and archived "; str output_filename]).

Definition base_filename_parts (internal_length internal_width internal_height : float) :=
  [lit "box_base_"; val internal_length; lit "x"; val internal_width; lit "x";
   val internal_height; lit ".stl"].

Definition lid_filename_parts (internal_length internal_width internal_height : float) :=
  [lit "box_lid_"; val internal_length; lit "x"; val internal_width; lit "x";
   val internal_height; lit ".stl"].

Definition create_full_box_with_lid (e : env) (tmpdirname : string)
    (internal_length internal_width internal_height : float)
    (wall_thickness lid_overlap lid_height : float) : M unit :=
  let base_filename :=
    fstring (base_filename_parts internal_length internal_width internal_height) in
  let lid_filename :=
    fstring (lid_filename_parts internal_length internal_width internal_height) in
  let base_outer := base_outer internal_length internal_width internal_height wall_thickness in
  let base_inner := base_inner internal_length internal_width internal_height wall_thickness in
  box_base <- mesh_difference e base_outer base_inner ;;
  export box_base (join tmpdirname base_filename) ;;
  let lid_outer := lid_outer internal_length internal_width wall_thickness lid_overlap lid_height in
  let lid_inner := lid_inner internal_length internal_width wall_thickness lid_overlap lid_height in
  box_lid <- mesh_difference e lid_outer lid_inner ;;
  export box_lid (join tmpdirname lid_filename) ;;
  print (fstring [lit "Exported box base to "; str (join tmpdirname base_filename)]) ;;
  print (fstring [lit "Exported box lid to "; str (join tmpdirname lid_filename)]).

(** The three lines written to README.txt. *)
Definition readme_lines (length width height thickness overlap lid_height : float)
    : list (list fpart) :=
  [ [lit "Box and Lid STL files created with specified dimensions."; lit newline];
    [lit "Length: "; val length; lit ", Width: "; val width; lit ", Height: "; val height;
     lit newline];
    [lit "Wall Thickness: "; val thickness; lit ", Lid Overlap: "; val overlap;
     lit ", Lid Height: "; val lid_height; lit newline] ].

Definition _default (e : env) (args : pargs.t) : M unit :=
  let length := pargs.length args in
  let width := pargs.width args in
  let height := pargs.height args in
  let thickness := pargs.thickness args in
  let overlap := pargs.overlap args in
  let lid_height := pargs.lid_height args in
  match length, width, height with
  | Some length, Some width, Some height =>
      with_TemporaryDirectory e (λ tmpdirname,
        let file_basename := fstring [lit "box_"; val length; lit "x"; val width; lit "x"; val height] in
        create_full_box_with_lid e tmpdirname length width height thickness overlap lid_height ;;
        let file_basename := fstring [lit "box_"; val length; lit "x"; val width; lit "x"; val height] in
        let files_to_include :=
          [ join tmpdirname (fstring (base_filename_parts length width height));
            join tmpdirname (fstring (lid_filename_parts length width height));
            join tmpdirname "README.txt" ] in
        let readme := join tmpdirname "README.txt" in
        open_w readme ;;
        for_each (readme_lines length width height thickness overlap lid_height)
          (λ line, write readme (fstring line)) ;;
        let archive_dir := "archive" in
        present <- os_path_exists archive_dir ;;
        (if present : bool then ret tt else os_makedirs archive_dir) ;;
        let output_filename := join archive_dir (fstring [str file_basename; lit ".tar.gz"]) in
        create_tar_gz output_filename files_to_include ;;
        for_each files_to_include (λ file, shutil_move file archive_dir))
  | _, _, _ =>
      print "Please provide the internal length, width, and height of the box."
  end.

End Script.

(** What [tempfile] promises about the name of the scratch directory: an
    absolute path that does not end in a separator. *)
Definition temp_dir_ok (d : string) : Prop :=
  startswith_sep d = true ∧ endswith_sep d = false.

(** The values a text made of f-strings records, and the text itself. *)
Definition recorded_values (lines : list (list fpart)) : list float :=
  interpolated (concat lines).

Definition manifest_text (repr : float → string)
    (length width height thickness overlap lid_height : float) : string :=
  fstring repr (concat (readme_lines length width height thickness overlap lid_height)).

(* ----------------------------------------------------------------- *)
(** ** A run to compute with

    A decimal printer that agrees with Python's [repr] on the floats of
    integral value below 1e16 (100.0 prints as 100.0); any other finite value
    is printed as mantissa and binary exponent.  It instantiates [repr] where
    a scenario is evaluated. *)

Definition repr_sign (s : bool) : string := if s then "-" else "".

Definition repr_integral (x : float) : string :=
  match Prim2SF x with
  | S754_zero s => repr_sign s +:+ "0.0"
  | S754_infinity s => repr_sign s +:+ "inf"
  | S754_nan => "nan"
  | S754_finite s m e =>
      if 0 <=? e then repr_sign s +:+ pretty (Zpos m * 2 ^ e) +:+ ".0"
      else if Zpos m mod 2 ^ (- e) =? 0
           then repr_sign s +:+ pretty (Zpos m / 2 ^ (- e)) +:+ ".0"
           else repr_sign s +:+ pretty (Zpos m) +:+ "*2**" +:+ pretty e
  end.

(** A fresh machine: no file, no directory, nothing printed. *)
Definition empty_state : state := State ∅ ∅ [].

(** An environment whose scratch directory is [/tmp/tmpbox] and whose
    boolean engine always succeeds. *)
Definition sample_env : env := Env "/tmp/tmpbox" (λ _ _, true).

(** The final state of a command, however it ended. *)
Definition final_state {A} (o : outcome A) : state :=
  match o with
  | Ok _ s => s
  | Raise _ s => s
  end.

(** The scenario of the specification: L = 100, W = 80, H = 50, the other
    options left to their defaults, on a fresh machine. *)
Definition scenario_args : pargs.t :=
  arguments (Some 100%float) (Some 80%float) (Some 50%float) None None None.

Definition scenario_final : state :=
  final_state (_default repr_integral sample_env scenario_args empty_state).

(** The same call with the height left out. *)
Definition missing_height_args : pargs.t :=
  arguments (Some 100%float) (Some 80%float) None None None None.

(** A machine where only the scratch directory exists, and the state
    [create_full_box_with_lid] leaves there for the scenario's dimensions. *)
Definition scratch_state : state := State ∅ {["/tmp/tmpbox"%string]} [].

Definition scratch_final : state :=
  final_state
    (create_full_box_with_lid repr_integral sample_env "/tmp/tmpbox"
       100%float 80%float 50%float 2%float 2%float 5%float scratch_state).

(** Another machine: a different scratch directory, a file already there. *)
Definition other_env : env := Env "/var/tmp/scratch" (λ _ _, true).

Definition other_state : state :=
  State {["notes.txt"%string := Text "keep"]} ∅ ["booted"%string].

Definition other_final : state :=
  final_state (_default repr_integral other_env scenario_args other_state).

(** A machine with two files to pack, and the state [create_tar_gz] leaves. *)
Definition packing_state : state :=
  State {["/tmp/tmpbox/a.stl"%string := Text "solid";
          "/tmp/tmpbox/README.txt"%string := Text "notes"]}
        {["archive"%string]} [].

Definition packing_final : state :=
  final_state
    (create_tar_gz repr_integral "archive/out.tar.gz"
       ["/tmp/tmpbox/a.stl"%string; "/tmp/tmpbox/README.txt"%string] packing_state).

(* ----------------------------------------------------------------- *)
(** ** The names of a run

    The local names of [_default] and what a run leaves behind, for the
    properties of whole runs in Part II. *)

(** Where [shutil.move(src, dst)] puts [src] when [dst] is a directory. *)
Definition real_dst (dst src : string) : string := join dst (basename (rstrip_sep src)).

(** [os.path.exists(p)], as a proposition. *)
Definition path_exists (s : state) (p : string) : Prop :=
  p ∈ dirs s ∨ is_Some (files s !! p).

(** [shutil.move] finds the place of [file] in [archive] free: no file and
    no directory of that name is there. *)
Definition destination_free (s : state) (file : string) : Prop :=
  (real_dst "archive" file ∉ dirs s) ∧ files s !! real_dst "archive" file = None.

(** Files and directories once the scratch directory [d] is removed. *)
Definition outside (d : string) (fs : gmap string file) : gmap string file :=
  filter (λ kv, under d kv.1 = false) fs.

Definition dirs_outside (d : string) (ds : gset string) : gset string :=
  filter (λ p, p ≠ d ∧ under d p = false) ds.

(** The exit of [with tempfile.TemporaryDirectory()]: the directory [d] is
    removed, however the body ended. *)
Definition cleaned {A} (d : string) (o : outcome A) : outcome A :=
  match o with
  | Ok a s' => Ok a (rmtree d s')
  | Raise x s' => Raise x (rmtree d s')
  end.

(** The members [create_tar_gz] stores for a list of files: each file that
    is there, under its base name and with the content it has. *)
Fixpoint members_of (fs : gmap string file) (names : list string) : list (string * file) :=
  match names with
  | [] => []
  | n :: names' =>
      match fs !! n with
      | Some f => (basename n, f) :: members_of fs names'
      | None => members_of fs names'
      end
  end.

Section RunNames.
Variable repr : float → string.

(** [files_to_include] and [output_filename] of [_default]. *)
Definition files_to_include (tmpdirname : string) (L W H : float) : list string :=
  [ join tmpdirname (fstring repr (base_filename_parts L W H));
    join tmpdirname (fstring repr (lid_filename_parts L W H));
    join tmpdirname "README.txt" ].

Definition output_filename (L W H : float) : string :=
  join "archive"
    (fstring repr [str (fstring repr [lit "box_"; val L; lit "x"; val W; lit "x"; val H]);
                   lit ".tar.gz"]).

(** The paths of a run and what the proofs need to know about them: the
    three scratch files [pb], [pl], [pr], the tarball [pt], and the places
    [db], [dl], [dr] of the three files in [archive]. *)
Record layout (tmp : string) (L W H : float) (pb pl pr pt db dl dr : string) : Prop := {
  lay_pb : join tmp (fstring repr (base_filename_parts L W H)) = pb;
  lay_pl : join tmp (fstring repr (lid_filename_parts L W H)) = pl;
  lay_pr : join tmp "README.txt" = pr;
  lay_pt : output_filename L W H = pt;
  lay_db : real_dst "archive" pb = db;
  lay_dl : real_dst "archive" pl = dl;
  lay_dr : real_dst "archive" pr = dr;
  lay_db' : "archive/" +:+ fstring repr (base_filename_parts L W H) = db;
  lay_dl' : "archive/" +:+ fstring repr (lid_filename_parts L W H) = dl;
  lay_dr' : "archive/README.txt" = dr;
  lay_pt' : "archive/box_" +:+ repr L +:+ "x" +:+ repr W +:+ "x" +:+ repr H +:+ ".tar.gz" = pt;
  lay_bb : basename pb = fstring repr (base_filename_parts L W H);
  lay_bl : basename pl = fstring repr (lid_filename_parts L W H);
  lay_br : basename pr = "README.txt";
  lay_under : under tmp pb = true ∧ under tmp pl = true ∧ under tmp pr = true;
  lay_out : under tmp pt = false ∧ under tmp db = false ∧ under tmp dl = false ∧
            under tmp dr = false ∧ under tmp "archive" = false;
  lay_parent : dirname pb = tmp ∧ dirname pl = tmp ∧ dirname pr = tmp ∧
               dirname pt = "archive" ∧ dirname db = "archive" ∧
               dirname dl = "archive" ∧ dirname dr = "archive";
  lay_ne : NoDup [pb; pl; pr; pt; db; dl; dr; "archive"; tmp];
}.

(** What the run needs up to the tarball: the engine manages both
    differences; no directory sits where the tarball or a scratch file is
    written; and [archive] is a directory or does not exist. *)
Definition packable (e : env) (L W H T O LH : float) (s : state) : Prop :=
  engine_ok e (base_outer L W H T) (base_inner L W H T) = true ∧
  engine_ok e (lid_outer L W T O LH) (lid_inner L W T O LH) = true ∧
  Forall (λ p, p ∉ dirs s) (output_filename L W H :: files_to_include (mkdtemp e) L W H) ∧
  ("archive" ∈ dirs s ∨ files s !! "archive" = None).

(** When a run with the three dimensions can complete: it can pack, and none
    of the three files has a namesake in [archive]. *)
Definition ready (e : env) (L W H T O LH : float) (s : state) : Prop :=
  packable e L W H T O LH s ∧
  Forall (destination_free s) (files_to_include (mkdtemp e) L W H).

(** The three members of the tarball and the three lines a run prints. *)
Definition archive_members (L W H T O LH : float) : list (string * file) :=
  [ (fstring repr (base_filename_parts L W H),
     Stl (difference (base_outer L W H T) (base_inner L W H T)));
    (fstring repr (lid_filename_parts L W H),
     Stl (difference (lid_outer L W T O LH) (lid_inner L W T O LH)));
    ("README.txt"%string, Text (manifest_text repr L W H T O LH)) ].

Definition printed_lines (tmpdirname : string) (L W H : float) : list string :=
  [ fstring repr [lit "Exported box base to ";
                  str (join tmpdirname (fstring repr (base_filename_parts L W H)))];
    fstring repr [lit "Exported box lid to ";
                  str (join tmpdirname (fstring repr (lid_filename_parts L W H)))];
    fstring repr [lit "Created and archived "; str (output_filename L W H)] ].

(** The state a completed run leaves. *)
Definition completed (e : env) (L W H T O LH : float) (s : state) : state :=
  State
    (<["archive/README.txt" := Text (manifest_text repr L W H T O LH)]>
       (<["archive/" +:+ fstring repr (lid_filename_parts L W H) :=
            Stl (difference (lid_outer L W T O LH) (lid_inner L W T O LH))]>
          (<["archive/" +:+ fstring repr (base_filename_parts L W H) :=
               Stl (difference (base_outer L W H T) (base_inner L W H T))]>
             (<[output_filename L W H := TarGz (archive_members L W H T O LH)]>
                (outside (mkdtemp e) (files s))))))
    ({["archive"]} ∪ dirs_outside (mkdtemp e) (dirs s))
    (stdout s ++ printed_lines (mkdtemp e) L W H).

End RunNames.

(** An environment whose boolean engine always fails, and a machine where
    [archive] is a regular file. *)
Definition failing_env : env := Env "/tmp/tmpbox" (λ _ _, false).

Definition archive_file_state : state :=
  State {["archive"%string := Text "not a directory"]} ∅ [].

(* ----------------------------------------------------------------- *)
(** ** Vocabulary for binary64 values

    [SpecFloat] gives every finite float as a sign, a mantissa [m] and an
    exponent [e], of value m * 2^e.  The definitions below name what the
    rounding lemmas of Part II speak about. *)

(** Number of bits of a mantissa. *)
Definition digits (p : positive) : Z := Zpos (digits2_pos p).


(** The mantissa/exponent pair is the canonical binary64 representation of
    its value (53 bits, or fewer at the least exponent). *)
Definition canonical (m : positive) (e : Z) : bool := canonical_mantissa prec emax m e.

(** The value m * 2^e in units of the least subnormal, 2^-1074. *)
Definition scaled (m : positive) (e : Z) : Z := Zpos m * 2 ^ (e + 1074).

(** Lexicographic order on (exponent, mantissa). *)
Definition lexle (m1 : positive) (e1 : Z) (m2 : positive) (e2 : Z) : Prop :=
  e1 < e2 \/ (e1 = e2 /\ (m1 <= m2)%positive).

(** Neither the round bit nor the sticky bit of a shifted mantissa is set. *)
Definition flags_clear (a : shr_record) : Prop := shr_r a = false /\ shr_s a = false.

(** [b] is [a] shifted right by [k] bits: the mantissa is divided by 2^k, and
    no flag is raised when nothing is lost. *)
Definition steps (k : Z) (a b : shr_record) : Prop :=
  0 <= shr_m a ->
  shr_m b = shr_m a / 2 ^ k /\
  (flags_clear a -> shr_m a mod 2 ^ k = 0 -> flags_clear b).

(* ================================================================= *)
(** * Part II: properties *)

(* ----------------------------------------------------------------- *)
(** ** Binary64 arithmetic *)

Ltac hide_pow :=
  repeat match goal with
  | |- context [Z.pow ?a ?b] =>
      let x := fresh "pw" in set (x := Z.pow a b) in *; clearbody x
  | H : context [Z.pow ?a ?b] |- _ =>
      let x := fresh "pw" in set (x := Z.pow a b) in *; clearbody x
  end.

Lemma pow2_pos (k : Z) : 0 <= k -> 0 < 2 ^ k.
Proof. intros; apply Z.pow_pos_nonneg; lia. Qed.

Lemma pow2_split (a b : Z) : 0 <= a -> 0 <= b -> 2 ^ (a + b) = 2 ^ a * 2 ^ b.
Proof. intros; apply Z.pow_add_r; lia. Qed.

Lemma digits_spec (p : positive) : 2 ^ (digits p - 1) <= Zpos p < 2 ^ digits p.
Proof.
  unfold digits. induction p as [p IH|p IH|]; cbn [digits2_pos].
  - rewrite Pos2Z.inj_succ, (Pos2Z.inj_xI p).
    replace (Z.succ (Zpos (digits2_pos p)) - 1) with (Z.succ (Zpos (digits2_pos p) - 1)) by lia.
    rewrite !Z.pow_succ_r by lia. hide_pow. lia.
  - rewrite Pos2Z.inj_succ, (Pos2Z.inj_xO p).
    replace (Z.succ (Zpos (digits2_pos p)) - 1) with (Z.succ (Zpos (digits2_pos p) - 1)) by lia.
    rewrite !Z.pow_succ_r by lia. hide_pow. lia.
  - cbn. lia.
Qed.

Lemma digits_pos (p : positive) : 0 < digits p.
Proof. unfold digits; lia. Qed.

Lemma digits_unique (p : positive) (k : Z) :
  2 ^ (k - 1) <= Zpos p < 2 ^ k -> digits p = k.
Proof.
  intros [Hlo Hhi]. pose proof (digits_spec p) as [Dlo Dhi].
  pose proof (digits_pos p) as Hd.
  destruct (Z.lt_trichotomy (digits p) k) as [Hlt|[->|Hgt]]; [exfalso|reflexivity|exfalso].
  - assert (2 ^ digits p <= 2 ^ (k - 1)) by (apply Z.pow_le_mono_r; lia). lia.
  - assert (0 <= k \/ k < 0) as [Hk|Hk] by lia.
    + assert (2 ^ k <= 2 ^ (digits p - 1)) by (apply Z.pow_le_mono_r; lia). lia.
    + rewrite (Z.pow_neg_r 2 k) in Hhi by lia. lia.
Qed.

Lemma canonical_cases (m : positive) (e : Z) :
  canonical m e = true <->
  (digits m = 53 /\ -1074 <= e) \/ (digits m < 53 /\ e = -1074).
Proof.
  unfold canonical, canonical_mantissa, fexp, SpecFloat.emin, digits, prec, emax.
  rewrite Z.eqb_eq. lia.
Qed.

Lemma canonical_emin (m : positive) (e : Z) : canonical m e = true -> -1074 <= e.
Proof. rewrite canonical_cases; lia. Qed.

Lemma canonical_digits (m : positive) (e : Z) : canonical m e = true -> Zpos m < 2 ^ 53.
Proof.
  rewrite canonical_cases. intros H. pose proof (digits_spec m) as [_ Hhi].
  assert (2 ^ digits m <= 2 ^ 53) by (apply Z.pow_le_mono_r; lia). lia.
Qed.

Lemma scaled_pos m e : -1074 <= e -> 0 < scaled m e.
Proof.
  intros. unfold scaled. apply Z.mul_pos_pos; [lia|]. apply pow2_pos; lia.
Qed.

(** Values of canonical floats are ordered first by exponent. *)
Lemma scaled_exp_lt (m1 m2 : positive) (e1 e2 : Z) :
  Zpos m1 < 2 ^ 53 -> -1074 <= e1 -> digits m2 = 53 -> e1 < e2 ->
  scaled m1 e1 < scaled m2 e2.
Proof.
  intros H1 He1 H2 Hlt. unfold scaled.
  pose proof (digits_spec m2) as [Hlo _]. rewrite H2 in Hlo.
  replace (e2 + 1074) with ((e2 - e1 - 1) + 1 + (e1 + 1074)) by lia.
  rewrite (pow2_split (e2 - e1 - 1 + 1) (e1 + 1074)), (pow2_split (e2 - e1 - 1) 1) by lia.
  pose proof (pow2_pos (e2 - e1 - 1)) as P1.
  pose proof (pow2_pos (e1 + 1074)) as P2.
  change (2 ^ 1) with 2. change (53 - 1) with 52 in Hlo.
  set (a := 2 ^ (e1 + 1074)) in *. set (b := 2 ^ (e2 - e1 - 1)) in *.
  assert (0 < a) by (apply P2; lia). assert (1 <= b) by (assert (0 < b) by (apply P1; lia); lia).
  change (2 ^ 53) with (2 * 2 ^ 52) in H1. set (c := 2 ^ 52) in *. clearbody a b c.
  assert (Zpos m1 * a < 2 * c * a) by nia.
  assert (2 * c * a <= Zpos m2 * 2 * a) by nia.
  assert (Zpos m2 * 2 * a * 1 <= Zpos m2 * 2 * a * b) by (apply Z.mul_le_mono_nonneg_l; nia).
  nia.
Qed.

Lemma scaled_le_same (m1 m2 : positive) (e : Z) :
  -1074 <= e -> (scaled m1 e <= scaled m2 e <-> (m1 <= m2)%positive).
Proof.
  intros He. unfold scaled. pose proof (pow2_pos (e + 1074)).
  set (a := 2 ^ (e + 1074)) in *. assert (0 < a) by (apply H; lia). clearbody a.
  split; intros; nia.
Qed.


Lemma canonical_le_lex (m1 m2 : positive) (e1 e2 : Z) :
  canonical m1 e1 = true -> canonical m2 e2 = true ->
  scaled m1 e1 <= scaled m2 e2 -> lexle m1 e1 m2 e2.
Proof.
  intros C1 C2 Hle. unfold lexle.
  destruct (Z.lt_trichotomy e1 e2) as [Hlt|[->|Hgt]]; [now left| |exfalso].
  - right. split; [reflexivity|]. apply (scaled_le_same m1 m2 e2); [|assumption].
    now apply canonical_emin in C2.
  - pose proof (canonical_digits _ _ C2). pose proof (canonical_emin _ _ C2).
    apply canonical_cases in C1. 
    assert (digits m1 = 53) by lia.
    pose proof (scaled_exp_lt m2 m1 e2 e1). lia.
Qed.

(** ** Right shifts with round and sticky bits *)



Lemma shr_1_steps (a : shr_record) : steps 1 a (shr_1 a).
Proof.
  destruct a as [m r s]. unfold steps, flags_clear. cbn [shr_m shr_r shr_s].
  intros Hm. change (2 ^ 1) with 2.
  destruct m as [|[p|p|]|p]; try lia; cbn [shr_1 shr_m shr_r shr_s].
  - split; [reflexivity|]. intros [-> ->] _. auto.
  - split.
    + rewrite (Pos2Z.inj_xI p). apply (Z.div_unique _ 2 _ 1); lia.
    + intros _ H. exfalso. rewrite (Pos2Z.inj_xI p) in H.
      rewrite Z.add_comm, Z.mul_comm, Z.mod_add in H by lia. discriminate.
  - split.
    + rewrite (Pos2Z.inj_xO p). apply (Z.div_unique _ 2 _ 0); lia.
    + intros [-> ->] _. auto.
  - split; [reflexivity|]. intros _ H. discriminate.
Qed.

Lemma mod_pow2_split (m j k : Z) :
  0 <= j -> 0 <= k -> m mod 2 ^ (j + k) = 0 ->
  m mod 2 ^ j = 0 /\ (m / 2 ^ j) mod 2 ^ k = 0.
Proof.
  intros Hj Hk H. rewrite pow2_split in H by assumption.
  pose proof (pow2_pos j Hj). pose proof (pow2_pos k Hk).
  apply Z.mod_divide in H; [|lia]. destruct H as [q Hq].
  assert (Hm : m = q * 2 ^ k * 2 ^ j) by (rewrite Hq; ring).
  split.
  - rewrite Hm. apply Z.mod_mul. lia.
  - rewrite Hm, Z.div_mul by lia. apply Z.mod_mul. lia.
Qed.

Lemma steps_trans (j k : Z) (a b c : shr_record) :
  0 <= j -> 0 <= k -> steps j a b -> steps k b c -> steps (j + k) a c.
Proof.
  intros Hj Hk Hab Hbc Ha. destruct (Hab Ha) as [Eb Fb].
  assert (Hb : 0 <= shr_m b).
  { rewrite Eb. apply Z.div_pos; [assumption|]. now apply pow2_pos. }
  destruct (Hbc Hb) as [Ec Fc]. split.
  - rewrite Ec, Eb, pow2_split by assumption.
    apply Z.div_div; apply Z.lt_le_incl || idtac; try (now apply pow2_pos).
    pose proof (pow2_pos j Hj); lia.
  - intros Fa Hmod. destruct (mod_pow2_split _ _ _ Hj Hk Hmod) as [M1 M2].
    apply Fc; [now apply Fb|]. now rewrite Eb.
Qed.

Lemma iter_pos_steps (p : positive) (a : shr_record) :
  steps (Zpos p) a (SpecFloat.iter_pos shr_1 p a).
Proof.
  revert a. induction p as [p IH|p IH|]; intros a; cbn [SpecFloat.iter_pos].
  - replace (Zpos p~1) with (1 + Zpos p + Zpos p) by lia.
    eapply steps_trans; [lia|lia| |apply IH].
    eapply steps_trans; [lia|lia|apply shr_1_steps|apply IH].
  - replace (Zpos p~0) with (Zpos p + Zpos p) by lia.
    eapply steps_trans; [lia|lia|apply IH|apply IH].
  - apply shr_1_steps.
Qed.

Lemma round_nearest_even_bounds (a : shr_record) :
  let m := round_nearest_even (shr_m a) (loc_of_shr_record a) in
  shr_m a <= m <= shr_m a + 1 /\ (flags_clear a -> m = shr_m a).
Proof.
  destruct a as [m [|] [|]]; unfold flags_clear; cbn; try destruct (Z.even m); 
    repeat split; try lia; intros [? ?]; discriminate.
Qed.

Lemma fexp_eq (x : Z) : fexp prec emax x = Z.max (x - 53) (-1074).
Proof. reflexivity. Qed.

Lemma shr_fexp_canonical (m : positive) (e : Z) :
  canonical m e = true ->
  shr_fexp prec emax (Zpos m) e loc_Exact =
  ({| shr_m := Zpos m; shr_r := false; shr_s := false |}, e).
Proof.
  unfold canonical, canonical_mantissa, shr_fexp. intros H%Z.eqb_eq.
  cbn [Zdigits2]. rewrite H, Z.sub_diag. reflexivity.
Qed.

Lemma binary_round_aux_canonical (s : bool) (m : positive) (e : Z) :
  canonical m e = true ->
  binary_round_aux prec emax s (Zpos m) e loc_Exact =
  if e <=? 971 then S754_finite s m e else S754_infinity s.
Proof.
  intros H. unfold binary_round_aux. rewrite (shr_fexp_canonical m e H).
  cbn [shr_m loc_of_shr_record round_nearest_even]. rewrite (shr_fexp_canonical m e H).
  reflexivity.
Qed.

Lemma iter_xO (m d : positive) : Zpos (Pos.iter xO m d) = Zpos m * 2 ^ Zpos d.
Proof.
  induction d as [|d IH] using Pos.peano_ind.
  - cbn. lia.
  - rewrite Pos.iter_succ, Pos2Z.inj_succ, Z.pow_succ_r by lia.
    rewrite (Pos2Z.inj_xO (Pos.iter xO m d)), IH. ring.
Qed.

Lemma shl_align_spec (m : positive) (e f : Z) :
  f <= e ->
  exists m', shl_align m e f = (m', f) /\ Zpos m' = Zpos m * 2 ^ (e - f).
Proof.
  intros Hle. unfold shl_align. destruct (f - e) as [|d|d] eqn:Hd; try lia.
  - assert (f = e) as -> by lia. exists m. rewrite Z.sub_diag. split; [reflexivity|cbn; lia].
  - exists (Pos.iter xO m d). split; [reflexivity|].
    rewrite iter_xO. f_equal. f_equal. lia.
Qed.

Lemma shl_align_id (m : positive) (e f : Z) : e <= f -> shl_align m e f = (m, e).
Proof. intros Hle. unfold shl_align. destruct (f - e) eqn:Hd; try lia; reflexivity. Qed.

(** ** Rounding a positive integer mantissa *)

Lemma div_pow2_bounds (N : positive) (n : Z) :
  0 < n -> digits N = 53 + n ->
  2 ^ 52 <= Zpos N / 2 ^ n < 2 ^ 53.
Proof.
  intros Hn Hd. pose proof (digits_spec N) as [Hlo Hhi]. rewrite Hd in Hlo, Hhi.
  replace (53 + n - 1) with (52 + n) in Hlo by lia.
  rewrite pow2_split in Hlo, Hhi by lia.
  pose proof (pow2_pos n ltac:(lia)) as Hp.
  split.
  - apply Z.div_le_lower_bound; lia.
  - apply Z.div_lt_upper_bound; lia.
Qed.

Lemma binary_round_spec (s : bool) (N : positive) (e : Z) :
  -1074 <= e ->
  exists m' e',
    canonical m' e' = true /\
    binary_round prec emax s N e =
      (if e' <=? 971 then S754_finite s m' e' else S754_infinity s) /\
    (forall mz ez, canonical mz ez = true ->
       scaled mz ez <= scaled N e -> scaled mz ez <= scaled m' e') /\
    (forall mz ez, canonical mz ez = true ->
       scaled N e <= scaled mz ez -> scaled m' e' <= scaled mz ez).
Proof.
  intros He. unfold binary_round.
  fold (digits N). rewrite fexp_eq.
  set (f := Z.max (digits N + e - 53) (-1074)).
  pose proof (digits_spec N) as [Dlo Dhi]. pose proof (digits_pos N) as Dpos.
  destruct (Z.le_gt_cases f e) as [Hfe|Hfe].
  - (* the mantissa fits: the result is exact *)
    destruct (shl_align_spec N e f Hfe) as (m' & -> & Hm').
    assert (Hdig : digits m' = digits N + (e - f)).
    { apply digits_unique. rewrite Hm'.
      replace (digits N + (e - f) - 1) with (digits N - 1 + (e - f)) by lia.
      rewrite !pow2_split by lia.
      pose proof (pow2_pos (e - f) ltac:(lia)). split; nia. }
    assert (Hc : canonical m' f = true).
    { apply canonical_cases. subst f. lia. }
    assert (Hv : scaled m' f = scaled N e).
    { unfold scaled. rewrite Hm'. replace (e + 1074) with ((e - f) + (f + 1074)) by lia.
      rewrite (pow2_split (e - f)) by lia. ring. }
    exists m', f. rewrite (binary_round_aux_canonical s m' f Hc), Hv. auto.
  - (* the mantissa is too long: shift right and round *)
    assert (Hf : f = digits N + e - 53) by lia.
    set (n := f - e). assert (Hn : 0 < n) by lia.
    rewrite (shl_align_id N e f) by lia.
    unfold binary_round_aux, shr_fexp at 1. cbn [Zdigits2 shr_record_of_loc].
    fold (digits N). rewrite fexp_eq. fold f. fold n.
    destruct n as [|pn|pn] eqn:En; try lia. cbn [shr].
    pose proof (iter_pos_steps pn {| shr_m := Zpos N; shr_r := false; shr_s := false |}) as St.
    destruct (SpecFloat.iter_pos shr_1 pn _) as [m1 r1 s1] eqn:Eit.
    unfold steps, flags_clear in St. cbn [shr_m shr_r shr_s] in St.
    destruct (St ltac:(lia)) as [Hm1 Hfl]. clear St.
    rewrite <- En in *. 
    pose proof (div_pow2_bounds N n Hn ltac:(lia)) as Hb. rewrite <- Hm1 in Hb.
    pose proof (round_nearest_even_bounds {| shr_m := m1; shr_r := r1; shr_s := s1 |}) as Hr.
    cbn [shr_m] in Hr |- *. unfold flags_clear in Hr. cbn [shr_r shr_s] in Hr.
    set (m2 := round_nearest_even m1 _) in *. destruct Hr as [Hr1 Hr2].
    replace (e + n) with f by lia.
    pose proof (pow2_pos n ltac:(lia)) as Pn.
    pose proof (pow2_pos (e + 1074) ltac:(lia)) as Pa.
    assert (Hfa : 2 ^ (f + 1074) = 2 ^ n * 2 ^ (e + 1074)).
    { replace (f + 1074) with (n + (e + 1074)) by lia. apply pow2_split; lia. }
    assert (Hdown : m1 * 2 ^ n <= Zpos N).
    { rewrite Hm1, Z.mul_comm. apply Z.mul_div_le. lia. }
    assert (Hexact : Zpos N mod 2 ^ n = 0 -> m2 = m1) by (intros; apply Hr2, Hfl; auto).
    (* sandwich facts on m1, m2 *)
    assert (Hlow : forall mz ez, canonical mz ez = true ->
              scaled mz ez <= scaled N e -> scaled mz ez <= m1 * 2 ^ (f + 1074)).
    { intros mz ez Cz Hz. destruct (Z.le_gt_cases f ez) as [Hge|Hlt].
      - unfold scaled in *. replace (ez + 1074) with ((ez - f) + (f + 1074)) in * by lia.
        rewrite (pow2_split (ez - f)) in * by lia. rewrite Hfa in *.
        pose proof (pow2_pos (ez - f) ltac:(lia)) as Pk.
        assert (Zpos mz * 2 ^ (ez - f) <= m1).
        { rewrite Hm1. apply Z.div_le_lower_bound; [lia|].
          set (a := 2 ^ (e + 1074)) in *. set (b := 2 ^ n) in *.
          set (k := 2 ^ (ez - f)) in *. clearbody a b k. nia. }
        set (a := 2 ^ (e + 1074)) in *. set (b := 2 ^ n) in *.
        set (k := 2 ^ (ez - f)) in *. clearbody a b k. nia.
      - destruct m1 as [|p1|p1]; try (change (2 ^ 52) with 4503599627370496 in Hb; lia).
        assert (digits p1 = 53) by (apply digits_unique; exact Hb).
        pose proof (scaled_exp_lt mz p1 ez f (canonical_digits _ _ Cz)
                      (canonical_emin _ _ Cz) H Hlt) as Hs.
        unfold scaled in Hs |- *. lia. }
    assert (Hup : forall mz ez, canonical mz ez = true ->
              scaled N e <= scaled mz ez -> m2 * 2 ^ (f + 1074) <= scaled mz ez).
    { intros mz ez Cz Hz. destruct (Z.le_gt_cases f ez) as [Hge|Hlt].
      - unfold scaled in *. replace (ez + 1074) with ((ez - f) + (f + 1074)) in * by lia.
        rewrite (pow2_split (ez - f)) in * by lia. rewrite Hfa in *.
        pose proof (pow2_pos (ez - f) ltac:(lia)) as Pk.
        assert (Hk : Zpos N <= Zpos mz * 2 ^ (ez - f) * 2 ^ n).
        { set (a := 2 ^ (e + 1074)) in *. set (b := 2 ^ n) in *.
          set (k := 2 ^ (ez - f)) in *. clearbody a b k. nia. }
        assert (m2 <= Zpos mz * 2 ^ (ez - f)).
        { destruct (Z.eq_dec (Zpos N mod 2 ^ n) 0) as [Hz0|Hnz].
          - rewrite (Hexact Hz0), Hm1. 
            apply Z.div_le_upper_bound; [lia|]. lia.
          - assert (Zpos N <> Zpos mz * 2 ^ (ez - f) * 2 ^ n).
            { intros Heq. apply Hnz. rewrite Heq. apply Z.mod_mul. lia. }
            assert (m1 < Zpos mz * 2 ^ (ez - f)).
            { rewrite Hm1. apply Z.div_lt_upper_bound; [lia|]. lia. }
            lia. }
        set (a := 2 ^ (e + 1074)) in *. set (b := 2 ^ n) in *.
        set (k := 2 ^ (ez - f)) in *. clearbody a b k. nia.
      - exfalso. destruct m1 as [|p1|p1]; try (change (2 ^ 52) with 4503599627370496 in Hb; lia).
        assert (digits p1 = 53) by (apply digits_unique; exact Hb).
        pose proof (scaled_exp_lt mz p1 ez f (canonical_digits _ _ Cz)
                      (canonical_emin _ _ Cz) H Hlt) as Hs.
        unfold scaled in Hs, Hz. rewrite Hfa in Hs.
        set (a := 2 ^ (e + 1074)) in *. set (b := 2 ^ n) in *. clearbody a b. nia. }
    assert (Hm2 : 2 ^ 52 <= m2 < 2 ^ 53 \/ m2 = 2 ^ 53) by lia.
    destruct Hm2 as [Hm2|Hm2].
    + (* the rounded mantissa still has 53 bits *)
      destruct m2 as [|p2|p2] eqn:E2; try (change (2 ^ 52) with 4503599627370496 in Hm2; lia).
      assert (Hc : canonical p2 f = true).
      { apply canonical_cases. left. split; [apply digits_unique; exact Hm2|lia]. }
      rewrite (shr_fexp_canonical p2 f Hc). cbn [shr_m].
      exists p2, f. repeat split; try assumption; try reflexivity.
      * intros mz ez Cz Hz. specialize (Hlow mz ez Cz Hz). unfold scaled at 2.
        set (a := 2 ^ (f + 1074)) in *. assert (0 < a) by (subst a; apply pow2_pos; lia).
        clearbody a. nia.
    + (* rounding carried into a 54th bit *)
      rewrite Hm2 in *. change (2 ^ 53) with (Zpos (2 ^ 53)) in *.
      unfold shr_fexp. cbn [Zdigits2 shr_record_of_loc].
      change (Zpos (digits2_pos (2 ^ 53))) with 54.
      rewrite fexp_eq. replace (Z.max (54 + f - 53) (-1074) - f) with 1 by lia.
      cbn [shr SpecFloat.iter_pos shr_1 shr_m].
      assert (Hc : canonical (2 ^ 52) (f + 1) = true).
      { apply canonical_cases. left. split; [reflexivity|lia]. }
      exists (2 ^ 52)%positive, (f + 1). repeat split; try assumption; try reflexivity.
      * intros mz ez Cz Hz. specialize (Hlow mz ez Cz Hz). unfold scaled at 2.
        replace (f + 1 + 1074) with (1 + (f + 1074)) by lia. rewrite (pow2_split 1) by lia.
        change (2 ^ 1) with 2.
        set (a := 2 ^ (f + 1074)) in *. assert (0 < a) by (subst a; apply pow2_pos; lia).
        clearbody a. change (Zpos (2 ^ 52)) with 4503599627370496. 
        change (2 ^ 52) with 4503599627370496 in Hb. nia.
      * intros mz ez Cz Hz. specialize (Hup mz ez Cz Hz). unfold scaled at 1.
        replace (f + 1 + 1074) with (1 + (f + 1074)) by lia. rewrite (pow2_split 1) by lia.
        change (2 ^ 1) with 2.
        set (a := 2 ^ (f + 1074)) in *. clearbody a.
        change (Zpos (2 ^ 52)) with 4503599627370496.
        change (Zpos (2 ^ 53)) with 9007199254740992 in Hup. lia.
Qed.

(** ** Addition and subtraction of binary64 values *)

Lemma bounded_canonical (m : positive) (e : Z) :
  bounded prec emax m e = true -> canonical m e = true /\ e <= 971.
Proof.
  unfold bounded, canonical. intros [H1 H2%Z.leb_le]%andb_true_iff. split; [exact H1|exact H2].
Qed.

Lemma aligned_scaled (m : positive) (e ez : Z) :
  -1074 <= ez -> ez <= e ->
  Zpos (fst (shl_align m e ez)) * 2 ^ (ez + 1074) = scaled m e.
Proof.
  intros H1 H2. destruct (shl_align_spec m e ez H2) as (m' & -> & Hm').
  cbn [fst]. rewrite Hm'. unfold scaled.
  replace (e + 1074) with ((e - ez) + (ez + 1074)) by lia.
  rewrite (pow2_split (e - ez)) by lia. ring.
Qed.

Lemma compare_cont_Eq (a b : positive) : Pos.compare_cont Eq a b = (a ?= b)%positive.
Proof. reflexivity. Qed.

(** Adding a positive finite value never yields a smaller value. *)
Lemma SFadd_pos_not_lt (x : spec_float) (mc : positive) (ec : Z) :
  valid_binary x = true -> bounded prec emax mc ec = true ->
  SFltb (SF64add x (S754_finite false mc ec)) x = false.
Proof.
  intros Vx Vc. destruct x as [sx|sx| |sx mx ex].
  - destruct sx; reflexivity.
  - destruct sx; reflexivity.
  - reflexivity.
  - cbn [valid_binary] in Vx.
    destruct (bounded_canonical _ _ Vx) as [Cx Bx].
    destruct (bounded_canonical _ _ Vc) as [Cc Bc].
    pose proof (canonical_emin _ _ Cx) as Ex. pose proof (canonical_emin _ _ Cc) as Ec.
    unfold SF64add, SFadd. set (ez := Z.min ex ec).
    assert (Hez : -1074 <= ez) by (subst ez; lia).
    pose proof (aligned_scaled mx ex ez Hez ltac:(subst ez; lia)) as HX.
    pose proof (aligned_scaled mc ec ez Hez ltac:(subst ez; lia)) as HC.
    set (X := fst (shl_align mx ex ez)) in *. set (C := fst (shl_align mc ec ez)) in *.
    pose proof (pow2_pos (ez + 1074) ltac:(lia)) as Pa.
    destruct sx; cbn [cond_Zopp].
    + (* negative x: the sum is no further from zero than x *)
      destruct (Z.opp (Zpos X) + Zpos C) as [|p|p] eqn:Hs; cbn [binary_normalize].
      * reflexivity.
      * destruct (binary_round_spec false p ez Hez) as (m' & e' & _ & -> & _).
        destruct (e' <=? 971); reflexivity.
      * destruct (binary_round_spec true p ez Hez) as (m' & e' & Cm & -> & _ & Hup).
        assert (Hle : scaled m' e' <= scaled mx ex).
        { apply Hup; [exact Cx|]. unfold scaled at 1. rewrite <- HX.
          apply Z.mul_le_mono_nonneg_r; lia. }
        destruct (canonical_le_lex _ _ _ _ Cm Cx Hle) as [Hlt|[-> Hm]].
        -- replace (e' <=? 971) with true by (symmetry; apply Z.leb_le; lia).
           unfold SFltb, SFcompare. replace (e' ?= ex) with Lt by (symmetry; apply Z.compare_lt_iff; lia).
           reflexivity.
        -- replace (ex <=? 971) with true by (symmetry; apply Z.leb_le; lia).
           unfold SFltb, SFcompare. rewrite Z.compare_refl, compare_cont_Eq.
           destruct (Pos.compare_spec m' mx); try reflexivity. lia.
    + (* non-negative x *)
      change (Zpos X + Zpos C) with (Zpos (X + C)). cbn [binary_normalize].
      destruct (binary_round_spec false (X + C) ez Hez) as (m' & e' & Cm & -> & Hlow & _).
      destruct (e' <=? 971); [|reflexivity].
      assert (Hle : scaled mx ex <= scaled m' e').
      { apply Hlow; [exact Cx|]. unfold scaled at 2. rewrite <- HX.
        apply Z.mul_le_mono_nonneg_r; lia. }
      destruct (canonical_le_lex _ _ _ _ Cx Cm Hle) as [Hlt|[-> Hm]].
      * unfold SFltb, SFcompare. replace (e' ?= ex) with Gt by (symmetry; apply Z.compare_gt_iff; lia).
        reflexivity.
      * unfold SFltb, SFcompare. rewrite Z.compare_refl, compare_cont_Eq.
        destruct (Pos.compare_spec m' mx); try reflexivity. lia.
Qed.



(** ** Halving and mirroring *)






(** The same facts on primitive floats. *)
Section PrimitiveFloats.
#[local] Open Scope float_scope.

Lemma add_pos_not_ltb (x c : float) (mc : positive) (ec : Z) :
  Prim2SF c = S754_finite false mc ec -> (x + c <? x) = false.
Proof.
  intros Hc. rewrite FloatAxioms.ltb_spec, FloatAxioms.add_spec, Hc.
  apply SFadd_pos_not_lt; [apply Prim2SF_valid|].
  pose proof (Prim2SF_valid c) as V. rewrite Hc in V. exact V.
Qed.


Lemma add_clearance_not_ltb (x : float) : (x + 0.15 <? x) = false.
Proof. eapply add_pos_not_ltb. reflexivity. Qed.



End PrimitiveFloats.

(* ----------------------------------------------------------------- *)
(** ** Paths *)

Lemma append_nil (b : string) : EmptyString +:+ b = b.
Proof. reflexivity. Qed.

Lemma append_cons (c : ascii) (a b : string) : String c a +:+ b = String c (a +:+ b).
Proof. reflexivity. Qed.

Lemma append_assoc (a b c : string) : (a +:+ b) +:+ c = a +:+ (b +:+ c).
Proof.
  induction a as [|x a IH]; [reflexivity|].
  rewrite !append_cons. f_equal. exact IH.
Qed.

Lemma append_inj_l (a x y : string) : a +:+ x = a +:+ y -> x = y.
Proof.
  induction a as [|c a IH]; [auto|]. rewrite !append_cons. intros [= H]. auto.
Qed.

Lemma append_eq_nil (a b : string) : a +:+ b = EmptyString -> b = EmptyString.
Proof. destruct a; [auto|]. rewrite append_cons. discriminate. Qed.

Lemma contains_sep_app (a b : string) :
  contains_sep (a +:+ b) = contains_sep a || contains_sep b.
Proof.
  induction a as [|c a IH]; [reflexivity|].
  rewrite append_cons. cbn [contains_sep]. now rewrite IH, orb_assoc.
Qed.

Lemma startswith_sep_app (a b : string) :
  startswith_sep a = true -> startswith_sep (a +:+ b) = true.
Proof. destruct a; [discriminate|]. rewrite append_cons. auto. Qed.

Lemma startswith_sep_neq (p q : string) :
  startswith_sep p = true -> startswith_sep q = false -> p <> q.
Proof. intros Hp Hq ->. congruence. Qed.

Lemma no_sep_startswith (n : string) : contains_sep n = false -> startswith_sep n = false.
Proof. destruct n; [reflexivity|]. cbn. now intros [? ?]%orb_false_iff. Qed.

Lemma endswith_sep_app (a b : string) :
  b <> EmptyString -> endswith_sep (a +:+ b) = endswith_sep b.
Proof.
  intros Hb. induction a as [|c a IH]; [reflexivity|].
  rewrite append_cons. cbn [endswith_sep].
  destruct (a +:+ b) eqn:E; [|exact IH].
  apply append_eq_nil in E. congruence.
Qed.

Lemma no_sep_endswith (n : string) : contains_sep n = false -> endswith_sep n = false.
Proof.
  induction n as [|c n IH]; cbn; [reflexivity|].
  intros [Hc Hn]%orb_false_iff. destruct n; [exact Hc|auto].
Qed.

Lemma rstrip_sep_fix (p : string) : endswith_sep p = false -> rstrip_sep p = p.
Proof.
  induction p as [|c p IH]; [reflexivity|]. cbn [endswith_sep rstrip_sep].
  destruct p as [|c' p'].
  - cbn. now intros ->.
  - intros H. rewrite (IH H). reflexivity.
Qed.

Lemma rstrip_sep_app_sep (d : string) : rstrip_sep (d +:+ "/") = rstrip_sep d.
Proof.
  induction d as [|c d IH]; [reflexivity|].
  rewrite append_cons. cbn [rstrip_sep]. now rewrite IH.
Qed.

Lemma all_sep_app_sep (d : string) : all_sep (d +:+ "/") = all_sep d.
Proof.
  induction d as [|c d IH]; [reflexivity|].
  rewrite append_cons. cbn [all_sep]. now rewrite IH.
Qed.

Lemma all_sep_endswith (d : string) :
  all_sep d = true -> d <> EmptyString -> endswith_sep d = true.
Proof.
  induction d as [|c d IH]; [congruence|]. cbn.
  intros [Hc Hd]%andb_true_iff _. destruct d; [exact Hc|]. apply IH; [exact Hd|discriminate].
Qed.

Lemma split_last_no_sep (n : string) :
  contains_sep n = false -> split_last n = (EmptyString, n).
Proof.
  induction n as [|c n IH]; cbn; [reflexivity|].
  intros [Hc Hn]%orb_false_iff. now rewrite (IH Hn), Hn, Hc.
Qed.

Lemma split_last_app (d n : string) :
  contains_sep n = false -> split_last (d +:+ "/" +:+ n) = (d +:+ "/", n).
Proof.
  intros Hn. induction d as [|c d IH].
  - rewrite append_nil, append_cons, append_nil. cbn [split_last].
    now rewrite (split_last_no_sep n Hn), Hn.
  - rewrite !(append_cons c). cbn [split_last].
    rewrite IH, contains_sep_app, contains_sep_app. cbn. now rewrite orb_true_r.
Qed.

Lemma endswith_sep_split (a : string) :
  endswith_sep a = true -> exists d, a = d +:+ "/".
Proof.
  induction a as [|c a IH]; [discriminate|]. cbn. destruct a as [|c' a'].
  - intros H. exists EmptyString. rewrite append_nil. f_equal. unfold is_sep in H.
    now apply Ascii.eqb_eq in H.
  - intros H. destruct (IH H) as [d Hd]. exists (String c d).
    rewrite append_cons. now rewrite <- Hd.
Qed.

(** The base name of a file joined to any directory is the file's name. *)
Lemma basename_join (d n : string) :
  contains_sep n = false -> basename (join d n) = n.
Proof.
  intros Hn. unfold basename, join.
  rewrite (no_sep_startswith n Hn). destruct d as [|c d].
  - now rewrite (split_last_no_sep n Hn).
  - cbv beta iota. remember (String c d) as a eqn:Ea. clear Ea.
    destruct (endswith_sep a) eqn:E.
    + destruct (endswith_sep_split _ E) as [d' ->].
      rewrite append_assoc. now rewrite (split_last_app d' n Hn).
    + now rewrite (split_last_app a n Hn).
Qed.

(** A base name has no directory component. *)
Lemma basename_no_sep (p : string) : contains_sep (basename p) = false.
Proof.
  unfold basename. induction p as [|c p IH]; [reflexivity|]. cbn [split_last].
  destruct (split_last p) as [h t]. cbn [snd] in IH.
  destruct (contains_sep p) eqn:E; [exact IH|].
  destruct (is_sep c) eqn:Ec; cbn; [exact E|]. now rewrite Ec, E.
Qed.

Lemma dirname_app (d n : string) :
  contains_sep n = false -> d <> EmptyString -> endswith_sep d = false ->
  dirname (d +:+ "/" +:+ n) = d.
Proof.
  intros Hn Hd He. unfold dirname. rewrite (split_last_app d n Hn). cbn [fst].
  rewrite all_sep_app_sep, rstrip_sep_app_sep.
  destruct (all_sep d) eqn:Ea.
  - pose proof (all_sep_endswith d Ea Hd). congruence.
  - now apply rstrip_sep_fix.
Qed.

Lemma join_plain (d n : string) :
  d <> EmptyString -> endswith_sep d = false -> startswith_sep n = false ->
  join d n = d +:+ "/" +:+ n.
Proof. intros Hd He Hn. unfold join. rewrite Hn, He. destruct d; congruence. Qed.

Lemma under_absolute (d p : string) :
  startswith_sep d = true -> startswith_sep p = false -> under d p = false.
Proof.
  unfold under. intros Hd Hp.
  assert (H : exists r, (if endswith_sep d then d else d +:+ "/") = String "/" r).
  { destruct d as [|c d]; [discriminate|]. cbn in Hd. apply Ascii.eqb_eq in Hd. subst c.
    destruct (endswith_sep _); [eauto|]. rewrite append_cons. eauto. }
  destruct H as [r ->]. destruct p as [|c p]; [reflexivity|].
  cbn [startswith startswith_sep] in *. unfold is_sep in Hp. now rewrite Hp.
Qed.

Lemma last_char_app (a b : string) :
  last_char (a +:+ b) = match last_char b with Some c => Some c | None => last_char a end.
Proof.
  induction a as [|c a IH].
  - rewrite append_nil. destruct (last_char b); reflexivity.
  - rewrite append_cons. cbn [last_char]. rewrite IH. destruct (last_char b); reflexivity.
Qed.

Lemma endswith_sep_file (d n : string) :
  contains_sep n = false → n ≠ EmptyString → endswith_sep (d +:+ "/" +:+ n) = false.
Proof.
  intros Hn Hne. rewrite <- append_assoc, endswith_sep_app by exact Hne.
  now apply no_sep_endswith.
Qed.

Lemma move_target (d n : string) :
  contains_sep n = false → n ≠ EmptyString →
  basename (rstrip_sep (d +:+ "/" +:+ n)) = n.
Proof.
  intros Hn Hne. rewrite rstrip_sep_fix by now apply endswith_sep_file.
  unfold basename. now rewrite split_last_app.
Qed.

Lemma file_in_dir_inj (d n1 n2 : string) : d +:+ "/" +:+ n1 = d +:+ "/" +:+ n2 → n1 = n2.
Proof. intros E%append_inj_l. now apply (append_inj_l "/") in E. Qed.

Lemma creatable_parent (d n : string) (s : state) :
  contains_sep n = false → d ≠ EmptyString → endswith_sep d = false →
  creatable (d +:+ "/" +:+ n) s = true → d ∈ dirs s.
Proof.
  intros Hn Hd He. unfold creatable. rewrite (dirname_app d n Hn Hd He).
  intros [_ [H|H]%orb_true_iff]%andb_true_iff.
  - apply bool_decide_eq_true in H. congruence.
  - now apply bool_decide_eq_true in H.
Qed.

(* ----------------------------------------------------------------- *)
(** ** Running commands *)

Lemma bind_ok {A B} (c : M A) (k : A → M B) (s s' : state) (b : B) :
  bind c k s = Ok b s' → ∃ a s1, c s = Ok a s1 ∧ k a s1 = Ok b s'.
Proof. unfold bind. destruct (c s) as [a s1|x s1]; [eauto|discriminate]. Qed.

Lemma ret_ok {A} (a b : A) (s s' : state) : ret a s = Ok b s' → a = b ∧ s' = s.
Proof. unfold ret. now intros [= -> ->]. Qed.

Lemma print_ok (line : string) (s s' : state) (u : unit) :
  print line s = Ok u s' → files s' = files s ∧ dirs s' = dirs s.
Proof. unfold print. now intros [= _ <-]. Qed.

Lemma write_file_ok (p : string) (f : file) (s s' : state) (u : unit) :
  write_file p f s = Ok u s' →
  creatable p s = true ∧ files s' = <[p := f]> (files s) ∧ dirs s' = dirs s.
Proof.
  unfold write_file. destruct (creatable p s); [|discriminate]. now intros [= _ <-].
Qed.

Lemma write_ok (p text : string) (s s' : state) (u : unit) :
  write p text s = Ok u s' →
  ∃ t, files s !! p = Some (Text t) ∧
       files s' = <[p := Text (t +:+ text)]> (files s) ∧ dirs s' = dirs s.
Proof.
  unfold write. destruct (files s !! p) as [[?|t|?]|]; try discriminate.
  intros [= _ <-]. eauto.
Qed.

Lemma tar_add_ok (tar name arcname : string) (s s' : state) (u : unit) :
  tar_add tar name arcname s = Ok u s' →
  ∃ f members, files s !! name = Some f ∧ files s !! tar = Some (TarGz members) ∧
    files s' = <[tar := TarGz (members ++ [(arcname, f)])]> (files s) ∧ dirs s' = dirs s.
Proof.
  unfold tar_add. destruct (files s !! name) as [f|]; [|discriminate].
  destruct (files s !! tar) as [[?|?|members]|]; try discriminate.
  intros [= _ <-]. eauto 10.
Qed.

Lemma mesh_difference_ok (e : env) (a b m : mesh) (s s' : state) :
  mesh_difference e a b s = Ok m s' → m = difference a b ∧ s' = s.
Proof. unfold mesh_difference. destruct (engine_ok e a b); [|discriminate]. now intros [= <- <-]. Qed.

Lemma os_rename_ok (src dst : string) (s s' : state) (u : unit) :
  os_rename src dst s = Ok u s' →
  ∃ f, files s !! src = Some f ∧
       files s' = <[dst := f]> (delete src (files s)) ∧ dirs s' = dirs s.
Proof.
  unfold os_rename. destruct (files s !! src) as [f|]; [|discriminate].
  destruct (creatable dst s); [|discriminate]. intros [= _ <-]. eauto.
Qed.

Lemma shutil_move_ok (src dst : string) (s s' : state) (u : unit) :
  dst ∈ dirs s → shutil_move src dst s = Ok u s' →
  ∃ f, files s !! src = Some f ∧
       files s' = <[join dst (basename (rstrip_sep src)) := f]> (delete src (files s)) ∧
       dirs s' = dirs s.
Proof.
  intros Hd. unfold shutil_move, bind, os_path_isdir, os_path_exists.
  rewrite (bool_decide_eq_true_2 _ Hd).
  destruct (_ || _); [discriminate|]. apply os_rename_ok.
Qed.

(** Successive commands are taken apart one at a time. *)
Ltac step H :=
  let a := fresh "a" in let s := fresh "s" in let H1 := fresh "Hstep" in
  apply bind_ok in H; destruct H as (a & s & H1 & H).

Section ScriptFacts.
Variable repr : float → string.

Lemma append_nil_r (a : string) : a +:+ EmptyString = a.
Proof. induction a as [|c a IH]; [reflexivity|]. rewrite append_cons. now f_equal. Qed.

Lemma fstring_app (a b : list fpart) :
  fstring repr (a ++ b) = fstring repr a +:+ fstring repr b.
Proof.
  induction a as [|p a IH]; [reflexivity|]. cbn [app fstring].
  now rewrite IH, append_assoc.
Qed.

Lemma base_filename_eq (L W H : float) :
  fstring repr (base_filename_parts L W H) =
  "box_base_" +:+ repr L +:+ "x" +:+ repr W +:+ "x" +:+ repr H +:+ ".stl".
Proof. reflexivity. Qed.

Lemma lid_filename_eq (L W H : float) :
  fstring repr (lid_filename_parts L W H) =
  "box_lid_" +:+ repr L +:+ "x" +:+ repr W +:+ "x" +:+ repr H +:+ ".stl".
Proof. reflexivity. Qed.

(** What [create_full_box_with_lid] leaves behind when it returns. *)
Lemma create_full_box_with_lid_ok (e : env) (tmpdirname : string)
    (L W H T O LH : float) (s s' : state) (u : unit) :
  create_full_box_with_lid repr e tmpdirname L W H T O LH s = Ok u s' →
  files s' =
    <[join tmpdirname (fstring repr (lid_filename_parts L W H)) :=
        Stl (difference (lid_outer L W T O LH) (lid_inner L W T O LH))]>
      (<[join tmpdirname (fstring repr (base_filename_parts L W H)) :=
           Stl (difference (base_outer L W H T) (base_inner L W H T))]> (files s)) ∧
  dirs s' = dirs s.
Proof.
  unfold create_full_box_with_lid. cbv zeta. intros Hrun.
  step Hrun. apply mesh_difference_ok in Hstep as [-> ->].
  step Hrun. apply write_file_ok in Hstep as (_ & F1 & D1).
  step Hrun. apply mesh_difference_ok in Hstep as [-> ->].
  step Hrun. apply write_file_ok in Hstep as (_ & F2 & D2).
  step Hrun. apply print_ok in Hstep as [F3 D3].
  apply print_ok in Hrun as [F4 D4].
  split; congruence.
Qed.

(** Writing lines through one handle appends them in order. *)
Lemma write_lines_ok (p : string) (lines : list (list fpart)) (s s' : state) (t : string) :
  for_each lines (λ line, write p (fstring repr line)) s = Ok tt s' →
  files s !! p = Some (Text t) →
  files s' = <[p := Text (t +:+ fstring repr (concat lines))]> (files s) ∧ dirs s' = dirs s.
Proof.
  revert s t. induction lines as [|l lines IH]; intros s t Hrun Hp; cbn [for_each] in Hrun.
  - apply ret_ok in Hrun as [_ ->]. cbn [concat fstring]. rewrite append_nil_r.
    split; [|reflexivity]. symmetry. now apply insert_id.
  - step Hrun. apply write_ok in Hstep as (t' & Ht & F1 & D1).
    rewrite Hp in Ht. injection Ht as <-.
    destruct (IH s0 (t +:+ fstring repr l) Hrun) as [F2 D2].
    { rewrite F1. apply lookup_insert_eq. }
    split; [|congruence].
    rewrite F2, F1, insert_insert_eq. cbn [concat].
    now rewrite fstring_app, append_assoc.
Qed.

(** Every member of the archive is stored under the base name of the file
    it was read from, in the order of the list. *)
Lemma tar_adds_ok (output : string) (names : list string) (s s' : state)
    (members : list (string * file)) :
  for_each names (λ file, tar_add output file (basename file)) s = Ok tt s' →
  files s !! output = Some (TarGz members) →
  ∃ added,
    files s' = <[output := TarGz (members ++ added)]> (files s) ∧ dirs s' = dirs s ∧
    Forall2 (λ file m, m.1 = basename file ∧ (file ≠ output → files s !! file = Some m.2))
      names added.
Proof.
  revert s members. induction names as [|n names IH]; intros s members Hrun Hout;
    cbn [for_each] in Hrun.
  - apply ret_ok in Hrun as [_ ->]. exists []. rewrite app_nil_r.
    split; [symmetry; now apply insert_id|]. split; [reflexivity|constructor].
  - step Hrun. apply tar_add_ok in Hstep as (f & ms & Hn & Ht & F1 & D1).
    rewrite Hout in Ht. injection Ht as <-.
    destruct (IH s0 (members ++ [(basename n, f)]) Hrun) as (added & F2 & D2 & Hall).
    { rewrite F1. apply lookup_insert_eq. }
    exists ((basename n, f) :: added). split; [|split; [congruence|]].
    + rewrite F2, F1, insert_insert_eq. now rewrite <- app_assoc.
    + constructor; [split; [reflexivity|intros _; exact Hn]|].
      eapply Forall2_impl; [exact Hall|]. cbn. intros file m [Hm Hf]. split; [exact Hm|].
      intros Hne. specialize (Hf Hne). rewrite F1 in Hf.
      now rewrite lookup_insert_ne in Hf by congruence.
Qed.

Lemma create_tar_gz_ok (output : string) (names : list string) (s s' : state) (u : unit) :
  create_tar_gz repr output names s = Ok u s' →
  ∃ added,
    files s' = <[output := TarGz added]> (files s) ∧ dirs s' = dirs s ∧
    creatable output s = true ∧
    Forall2 (λ file m, m.1 = basename file ∧ (file ≠ output → files s !! file = Some m.2))
      names added.
Proof.
  unfold create_tar_gz. intros Hrun.
  step Hrun. apply write_file_ok in Hstep as (C & F1 & D1).
  step Hrun. destruct a0. apply (tar_adds_ok _ _ _ _ []) in Hstep as (added & F2 & D2 & Hall);
    [|rewrite F1; apply lookup_insert_eq].
  apply print_ok in Hrun as [F3 D3]. exists added. split; [|split; [congruence|split; [exact C|]]].
  - rewrite F3, F2, F1, insert_insert_eq. reflexivity.
  - eapply Forall2_impl; [exact Hall|]. cbn. intros file m [Hm Hf]. split; [exact Hm|].
    intros Hne. specialize (Hf Hne). rewrite F1 in Hf.
    now rewrite lookup_insert_ne in Hf by congruence.
Qed.

Lemma tarball_name_eq (L W H : float) :
  fstring repr [str (fstring repr [lit "box_"; val L; lit "x"; val W; lit "x"; val H]);
                lit ".tar.gz"] =
  "box_" +:+ repr L +:+ "x" +:+ repr W +:+ "x" +:+ repr H +:+ ".tar.gz".
Proof.
  cbn [fstring fpart_text]. rewrite !append_nil_r, !append_assoc. reflexivity.
Qed.


Ltac through_map H :=
  repeat first
    [ rewrite lookup_insert_eq in H
    | rewrite lookup_insert_ne in H by congruence
    | rewrite lookup_delete_ne in H by congruence ].

Ltac through_goal :=
  repeat first
    [ rewrite lookup_insert_eq
    | rewrite lookup_insert_ne by congruence
    | rewrite lookup_delete_ne by congruence ].

Lemma default_ok (e : env) (args : pargs.t) (L W H : float) (s s' : state) :
  temp_dir_ok (mkdtemp e) →
  contains_sep (repr L) = false → contains_sep (repr W) = false →
  contains_sep (repr H) = false →
  pargs.length args = Some L → pargs.width args = Some W → pargs.height args = Some H →
  _default repr e args s = Ok tt s' →
  let T := pargs.thickness args in
  let O := pargs.overlap args in
  let LH := pargs.lid_height args in
  let base := Stl (difference (base_outer L W H T) (base_inner L W H T)) in
  let lid := Stl (difference (lid_outer L W T O LH) (lid_inner L W T O LH)) in
  let readme := Text (manifest_text repr L W H T O LH) in
  files s' !! ("archive/box_" +:+ repr L +:+ "x" +:+ repr W +:+ "x" +:+ repr H +:+ ".tar.gz") =
    Some (TarGz [("box_base_" +:+ repr L +:+ "x" +:+ repr W +:+ "x" +:+ repr H +:+ ".stl", base);
                 ("box_lid_" +:+ repr L +:+ "x" +:+ repr W +:+ "x" +:+ repr H +:+ ".stl", lid);
                 ("README.txt", readme)]) ∧
  files s' !! "archive/README.txt" = Some readme ∧
  files s' !! ("archive/box_base_" +:+ repr L +:+ "x" +:+ repr W +:+ "x" +:+ repr H +:+ ".stl") =
    Some base ∧
  files s' !! ("archive/box_lid_" +:+ repr L +:+ "x" +:+ repr W +:+ "x" +:+ repr H +:+ ".stl") =
    Some lid.
Proof.
  intros [Tabs Tend] CL CW CH EL EW EH Hrun T O LH base lid readme.
  unfold _default in Hrun. rewrite EL, EW, EH in Hrun. cbv zeta in Hrun.
  fold T O LH in Hrun.
  unfold with_TemporaryDirectory in Hrun. cbv zeta in Hrun.
  set (tmp := mkdtemp e) in *.
  match type of Hrun with context [match ?b with Ok _ _ => _ | Raise _ _ => _ end] =>
    destruct b as [u s9|x s9] eqn:Hbody end; [|discriminate].
  destruct u. injection Hrun as <-.
  rewrite tarball_name_eq, base_filename_eq, lid_filename_eq in Hbody.
  change ("archive/box_" +:+ ?x) with ("archive" +:+ "/" +:+ "box_" +:+ x).
  change ("archive/box_base_" +:+ ?x) with ("archive" +:+ "/" +:+ "box_base_" +:+ x).
  change ("archive/box_lid_" +:+ ?x) with ("archive" +:+ "/" +:+ "box_lid_" +:+ x).
  change "archive/README.txt" with ("archive" +:+ "/" +:+ "README.txt").
  set (nb := "box_base_" +:+ repr L +:+ "x" +:+ repr W +:+ "x" +:+ repr H +:+ ".stl") in *.
  set (nl := "box_lid_" +:+ repr L +:+ "x" +:+ repr W +:+ "x" +:+ repr H +:+ ".stl") in *.
  set (nt := "box_" +:+ repr L +:+ "x" +:+ repr W +:+ "x" +:+ repr H +:+ ".tar.gz") in *.
  set (nr := "README.txt") in *.
  (* the names *)
  assert (Cb : contains_sep nb = false)
    by (unfold nb; rewrite !contains_sep_app, CL, CW, CH; reflexivity).
  assert (Cl : contains_sep nl = false)
    by (unfold nl; rewrite !contains_sep_app, CL, CW, CH; reflexivity).
  assert (Ct : contains_sep nt = false)
    by (unfold nt; rewrite !contains_sep_app, CL, CW, CH; reflexivity).
  assert (Cr : contains_sep nr = false) by reflexivity.
  assert (Lb : last_char nb = Some "l"%char) by (unfold nb; rewrite !last_char_app; reflexivity).
  assert (Ll : last_char nl = Some "l"%char) by (unfold nl; rewrite !last_char_app; reflexivity).
  assert (Lt : last_char nt = Some "z"%char) by (unfold nt; rewrite !last_char_app; reflexivity).
  assert (Lr : last_char nr = Some "t"%char) by reflexivity.
  assert (Gb : String.get 4 nb = Some "b"%char) by reflexivity.
  assert (Gl : String.get 4 nl = Some "l"%char) by reflexivity.
  assert (Gr : String.get 4 nr = Some "M"%char) by reflexivity.
  assert (Nb : nb ≠ EmptyString) by (intros E; rewrite E in Lb; discriminate).
  assert (Nl : nl ≠ EmptyString) by (intros E; rewrite E in Ll; discriminate).
  assert (Nt : nt ≠ EmptyString) by (intros E; rewrite E in Lt; discriminate).
  assert (Nr : nr ≠ EmptyString) by discriminate.
  assert (Hbl : nb ≠ nl) by (intros E; rewrite E in Gb; congruence).
  assert (Hbr : nb ≠ nr) by (intros E; rewrite E in Gb; congruence).
  assert (Hlr : nl ≠ nr) by (intros E; rewrite E in Gl; congruence).
  assert (Htb : nt ≠ nb) by (intros E; rewrite E in Lt; congruence).
  assert (Htl : nt ≠ nl) by (intros E; rewrite E in Lt; congruence).
  assert (Htr : nt ≠ nr) by (intros E; rewrite E in Lt; congruence).
  assert (Eb : fstring repr (base_filename_parts L W H) = nb) by reflexivity.
  assert (El : fstring repr (lid_filename_parts L W H) = nl) by reflexivity.
  clearbody nb nl nt nr.
  (* the paths *)
  assert (Ntmp : tmp ≠ EmptyString) by (intros E; rewrite E in Tabs; discriminate).
  rewrite !(join_plain tmp) in Hbody by (assumption || now apply no_sep_startswith).
  rewrite (join_plain "archive") in Hbody by (done || now apply no_sep_startswith).
  set (pb := tmp +:+ "/" +:+ nb) in *. set (pl := tmp +:+ "/" +:+ nl) in *.
  set (pr := tmp +:+ "/" +:+ nr) in *. set (pt := "archive" +:+ "/" +:+ nt) in *.
  set (db := "archive" +:+ "/" +:+ nb). set (dl := "archive" +:+ "/" +:+ nl).
  set (dr := "archive" +:+ "/" +:+ nr).
  assert (Tb : basename (rstrip_sep pb) = nb) by now apply move_target.
  assert (Tl : basename (rstrip_sep pl) = nl) by now apply move_target.
  assert (Tr : basename (rstrip_sep pr) = nr) by now apply move_target.
  assert (Bb : basename pb = nb) by (unfold basename, pb; now rewrite split_last_app).
  assert (Bl : basename pl = nl) by (unfold basename, pl; now rewrite split_last_app).
  assert (Br : basename pr = nr) by (unfold basename, pr; now rewrite split_last_app).
  assert (Jb : join "archive" nb = db) by (apply join_plain; done || now apply no_sep_startswith).
  assert (Jl : join "archive" nl = dl) by (apply join_plain; done || now apply no_sep_startswith).
  assert (Jr : join "archive" nr = dr) by (apply join_plain; done || now apply no_sep_startswith).
  assert (Ab : ∀ n, startswith_sep (tmp +:+ "/" +:+ n) = true)
    by (intros n; now apply startswith_sep_app).
  assert (Rb : ∀ n, startswith_sep ("archive" +:+ "/" +:+ n) = false) by reflexivity.
  assert (Ut : under tmp pt = false) by (apply under_absolute; [assumption|apply Rb]).
  assert (Ub : under tmp db = false) by (apply under_absolute; [assumption|apply Rb]).
  assert (Ul : under tmp dl = false) by (apply under_absolute; [assumption|apply Rb]).
  assert (Ur : under tmp dr = false) by (apply under_absolute; [assumption|apply Rb]).
  assert (D1 : pb ≠ pl) by (intros E%file_in_dir_inj; done).
  assert (D2 : pb ≠ pr) by (intros E%file_in_dir_inj; done).
  assert (D3 : pl ≠ pr) by (intros E%file_in_dir_inj; done).
  assert (D4 : db ≠ dl) by (intros E%file_in_dir_inj; done).
  assert (D5 : db ≠ dr) by (intros E%file_in_dir_inj; done).
  assert (D6 : dl ≠ dr) by (intros E%file_in_dir_inj; done).
  assert (D7 : pt ≠ db) by (intros E%file_in_dir_inj; done).
  assert (D8 : pt ≠ dl) by (intros E%file_in_dir_inj; done).
  assert (D9 : pt ≠ dr) by (intros E%file_in_dir_inj; done).
  assert (Dabs : ∀ n m, tmp +:+ "/" +:+ n ≠ "archive" +:+ "/" +:+ m)
    by (intros n m; apply startswith_sep_neq; [apply Ab|apply Rb]).
  pose proof (Dabs nb nt) as X1. pose proof (Dabs nl nt) as X2. pose proof (Dabs nr nt) as X3.
  pose proof (Dabs nb nb) as X4. pose proof (Dabs nl nb) as X5. pose proof (Dabs nr nb) as X6.
  pose proof (Dabs nb nl) as X7. pose proof (Dabs nl nl) as X8. pose proof (Dabs nr nl) as X9.
  pose proof (Dabs nb nr) as Y1. pose proof (Dabs nl nr) as Y2. pose proof (Dabs nr nr) as Y3.
  fold pb pl pr pt db dl dr in X1, X2, X3, X4, X5, X6, X7, X8, X9, Y1, Y2, Y3.
  assert (Par : ∀ st, creatable pt st = true → "archive" ∈ dirs st).
  { intros st. apply creatable_parent; done. }
  assert (Pb : tmp +:+ "/" +:+ nb = pb) by reflexivity.
  assert (Pl : tmp +:+ "/" +:+ nl = pl) by reflexivity.
  clear Ab Rb Dabs.
  clearbody pb pl pr pt db dl dr.
  (* the run, command by command *)
  apply bind_ok in Hbody as (u1 & s1 & H1 & Hbody).
  apply create_full_box_with_lid_ok in H1 as [F1 _].
  rewrite Eb, El in F1. rewrite !(join_plain tmp) in F1 by (assumption || now apply no_sep_startswith).
  rewrite Pb, Pl in F1. cbn [files] in F1. fold base lid in F1.
  apply bind_ok in Hbody as (u2 & s2 & H2 & Hbody).
  apply write_file_ok in H2 as (_ & F2 & _).
  apply bind_ok in Hbody as ([] & s3 & H3 & Hbody).
  apply (write_lines_ok _ _ _ _ EmptyString) in H3 as [F3 _];
    [|rewrite F2; apply lookup_insert_eq].
  rewrite append_nil in F3. fold (manifest_text repr L W H T O LH) in F3. fold readme in F3.
  apply bind_ok in Hbody as (present & s4 & H4 & Hbody).
  unfold os_path_exists in H4. injection H4 as _ <-.
  apply bind_ok in Hbody as (u5 & s5 & H5 & Hbody).
  assert (F5 : files s5 = files s3).
  { destruct present.
    - apply ret_ok in H5 as [_ ->]. reflexivity.
    - unfold os_makedirs in H5. destruct (_ || _); [discriminate|].
      injection H5 as _ <-. reflexivity. }
  clear H5.
  apply bind_ok in Hbody as (u6 & s6 & H6 & Hbody).
  apply create_tar_gz_ok in H6 as (added & F6 & Dr6 & Cr6 & Hall).
  apply Par in Cr6. rewrite <- Dr6 in Cr6.
  (* the three members *)
  assert (Hs5 : files s5 = <[pr := readme]> (<[pl := lid]> (<[pb := base]> (files s)))).
  { rewrite F5, F3, F2, F1, insert_insert_eq. reflexivity. }
  apply Forall2_cons_inv_l in Hall as (m1 & r1 & [N1 C1] & Hall & ->).
  apply Forall2_cons_inv_l in Hall as (m2 & r2 & [N2 C2] & Hall & ->).
  apply Forall2_cons_inv_l in Hall as (m3 & r3 & [N3 C3] & Hall & ->).
  apply Forall2_nil_inv_l in Hall as ->.
  specialize (C1 X1). specialize (C2 X2). specialize (C3 X3).
  rewrite Hs5 in C1, C2, C3.
  rewrite lookup_insert_ne, lookup_insert_ne, lookup_insert_eq in C1 by congruence.
  rewrite lookup_insert_ne, lookup_insert_eq in C2 by congruence.
  rewrite lookup_insert_eq in C3.
  destruct m1 as [a1 c1], m2 as [a2 c2], m3 as [a3 c3]. cbn [fst snd] in *.
  injection C1 as <-. injection C2 as <-. injection C3 as <-.
  rewrite Bb in N1. rewrite Bl in N2. rewrite Br in N3. subst a1 a2 a3.
  (* the three moves *)
  cbn [for_each] in Hbody.
  apply bind_ok in Hbody as (u7 & s7 & H7 & Hbody).
  apply shutil_move_ok in H7 as (f7 & L7 & F7 & Dr7); [|exact Cr6].
  apply bind_ok in Hbody as (u8 & s8 & H8 & Hbody).
  apply shutil_move_ok in H8 as (f8 & L8 & F8 & Dr8); [|congruence].
  apply bind_ok in Hbody as (u9 & s9' & H9 & Hbody).
  apply shutil_move_ok in H9 as (f9 & L9 & F9 & Dr9); [|congruence].
  apply ret_ok in Hbody as [_ ->].
  rewrite Tb, Jb in F7. rewrite Tl, Jl in F8. rewrite Tr, Jr in F9.
  rewrite F6, Hs5 in L7. through_map L7. injection L7 as <-.
  rewrite F7, F6, Hs5 in L8. through_map L8. injection L8 as <-.
  rewrite F8, F7, F6, Hs5 in L9. through_map L9. injection L9 as <-.
  unfold rmtree. cbn [files]. rewrite F9, F8, F7, F6.
  repeat split; (apply map_lookup_filter_Some_2; [|assumption]).
  - through_goal. reflexivity.
  - through_goal. reflexivity.
  - through_goal. reflexivity.
  - through_goal. reflexivity.
Qed.

End ScriptFacts.

(* ----------------------------------------------------------------- *)
(** ** The solids and their placement *)

Section Placement.
#[local] Open Scope float_scope.


(** C1. The lid's inner cavity is the base's external length and width, each
    plus the clearance 0.15 (lid inner length = (L + 2T) + 0.15, lid inner
    width = (W + 2T) + 0.15, in binary64 arithmetic), and for all inputs,
    positive or not, it is never horizontally smaller than the base's
    external envelope. *)
Theorem lid_cavity_clears_base (L W H T O LH : float) :
  base_outer L W H T = box (external_length L T, external_width W T, base_height H T) ∧
  lid_inner L W T O LH =
    apply_translation
      (box (lid_inner_length L T, lid_inner_width W T, lid_inner_height T LH))
      (O - 2, O - 2, T / 2) ∧
  lid_inner_length L T = external_length L T + 0.15 ∧
  lid_inner_width W T = external_width W T + 0.15 ∧
  lid_inner_length L T = (L + 2 * T) + 0.15 ∧
  lid_inner_width W T = (W + 2 * T) + 0.15 ∧
  (lid_inner_length L T <? external_length L T) = false ∧
  (lid_inner_width W T <? external_width W T) = false.
Proof.
  repeat split; try reflexivity; apply add_clearance_not_ltb.
Qed.


End Placement.

(* ----------------------------------------------------------------- *)
(** ** What a run produces *)

Section Claims.
Variable repr : float → string.
#[local] Open Scope float_scope.

Lemma join_inj_r (d n1 n2 : string) :
  startswith_sep n1 = false → startswith_sep n2 = false →
  join d n1 = join d n2 → n1 = n2.
Proof.
  unfold join. intros -> ->. destruct d as [|c d]; [auto|].
  destruct (endswith_sep (String c d)).
  - apply append_inj_l.
  - intros E%append_inj_l. now apply (append_inj_l "/") in E.
Qed.

(** The two meshes [create_full_box_with_lid] exports: the base is
    [base_outer] minus [base_inner], the lid [lid_outer] minus [lid_inner]. *)
Lemma exported_solids (e : env) (tmpdirname : string) (L W H T O LH : float)
    (s s' : state) :
  create_full_box_with_lid repr e tmpdirname L W H T O LH s = Ok tt s' →
  files s' !! join tmpdirname
      ("box_base_" +:+ repr L +:+ "x" +:+ repr W +:+ "x" +:+ repr H +:+ ".stl") =
    Some (Stl (difference (base_outer L W H T) (base_inner L W H T))) ∧
  files s' !! join tmpdirname
      ("box_lid_" +:+ repr L +:+ "x" +:+ repr W +:+ "x" +:+ repr H +:+ ".stl") =
    Some (Stl (difference (lid_outer L W T O LH) (lid_inner L W T O LH))).
Proof.
  intros Hrun. apply create_full_box_with_lid_ok in Hrun as [-> _].
  rewrite base_filename_eq, lid_filename_eq. split.
  - rewrite lookup_insert_ne, lookup_insert_eq; [reflexivity|].
    intros E%join_inj_r; [|reflexivity|reflexivity].
    apply (f_equal (String.get 4)) in E. discriminate E.
  - apply lookup_insert_eq.
Qed.

(** C2. The base outer box is created with extents (L + 2T, W + 2T, H + T)
    and the lid outer box with extents (L + 2T + 2O, W + 2T + 2O, LH): these
    are the first operands of the two differences that a run exports.  For
    L = 100, W = 80, H = 50 and the default T = 2, O = 2, LH = 5 the base
    envelope is (104, 84, 52) and the lid envelope (108, 88, 5). *)
Theorem outer_envelopes (e : env) (tmpdirname : string) (L W H T O LH : float)
    (s s' : state) :
  create_full_box_with_lid repr e tmpdirname L W H T O LH s = Ok tt s' →
  files s' !! join tmpdirname
      ("box_base_" +:+ repr L +:+ "x" +:+ repr W +:+ "x" +:+ repr H +:+ ".stl") =
    Some (Stl (difference (box (L + 2 * T, W + 2 * T, H + T)) (base_inner L W H T))) ∧
  files s' !! join tmpdirname
      ("box_lid_" +:+ repr L +:+ "x" +:+ repr W +:+ "x" +:+ repr H +:+ ".stl") =
    Some (Stl (difference (box (L + 2 * T + 2 * O, W + 2 * T + 2 * O, LH))
                 (lid_inner L W T O LH))) ∧
  (let args := arguments (Some 100) (Some 80) (Some 50) None None None in
   base_outer 100 80 50 (pargs.thickness args) = box (104, 84, 52) ∧
   lid_outer 100 80 (pargs.thickness args) (pargs.overlap args) (pargs.lid_height args) =
     box (108, 88, 5)).
Proof.
  intros Hrun. destruct (exported_solids _ _ _ _ _ _ _ _ _ _ Hrun) as [Hb Hl].
  split; [exact Hb|]. split; [exact Hl|]. split; reflexivity.
Qed.

(** C3. The base inner cavity box has extents (L, W, H) and is translated by
    (T - 2, T - 2, T / 2) from the origin, where the outer box stays, before
    it is subtracted from the outer box; at T = 0 the translation is
    (-2, -2, 0). *)
Theorem base_cavity_placement (e : env) (tmpdirname : string) (L W H T O LH : float)
    (s s' : state) :
  create_full_box_with_lid repr e tmpdirname L W H T O LH s = Ok tt s' →
  files s' !! join tmpdirname
      ("box_base_" +:+ repr L +:+ "x" +:+ repr W +:+ "x" +:+ repr H +:+ ".stl") =
    Some (Stl (difference (base_outer L W H T)
                 (apply_translation (box (L, W, H)) (T - 2, T - 2, T / 2)))) ∧
  centre (base_outer L W H T) = (0, 0, 0) ∧
  base_inner L W H 0 = apply_translation (box (L, W, H)) (-2, -2, 0).
Proof.
  intros Hrun. destruct (exported_solids _ _ _ _ _ _ _ _ _ _ Hrun) as [Hb _].
  split; [exact Hb|]. split; reflexivity.
Qed.

(** C4. The lid inner cavity box has extents
    (L + 2T + 0.15, W + 2T + 0.15, LH - T / 2) and is translated by
    (O - 2, O - 2, T / 2) before it is subtracted from the lid outer box. *)
Theorem lid_cavity_placement (e : env) (tmpdirname : string) (L W H T O LH : float)
    (s s' : state) :
  create_full_box_with_lid repr e tmpdirname L W H T O LH s = Ok tt s' →
  files s' !! join tmpdirname
      ("box_lid_" +:+ repr L +:+ "x" +:+ repr W +:+ "x" +:+ repr H +:+ ".stl") =
    Some (Stl (difference (lid_outer L W T O LH)
                 (apply_translation
                    (box (L + 2 * T + 0.15, W + 2 * T + 0.15, LH - T / 2))
                    (O - 2, O - 2, T / 2)))) ∧
  centre (lid_outer L W T O LH) = (0, 0, 0).
Proof.
  intros Hrun. destruct (exported_solids _ _ _ _ _ _ _ _ _ _ Hrun) as [_ Hl].
  split; [exact Hl|reflexivity].
Qed.

(** C5. When length, width or height is missing, the run prints
    'Please provide the internal length, width, and height of the box.' and
    returns normally: nothing is raised, and no file or directory is created
    or changed. *)
Theorem missing_dimension_prints_only (e : env) (args : pargs.t) (s : state) :
  pargs.length args = None ∨ pargs.width args = None ∨ pargs.height args = None →
  _default repr e args s =
    Ok tt (State (files s) (dirs s)
             (stdout s ++
              ["Please provide the internal length, width, and height of the box."%string])).
Proof.
  unfold _default. intros [H|[H|H]]; rewrite H.
  - reflexivity.
  - destruct (pargs.length args); reflexivity.
  - destruct (pargs.length args), (pargs.width args); reflexivity.
Qed.

(** C7. After a successful run, [archive/box_{L}x{W}x{H}.tar.gz] holds
    exactly three members, in this order: the base mesh
    [box_base_{L}x{W}x{H}.stl], the lid mesh [box_lid_{L}x{W}x{H}.stl] and
    the manifest [README.txt]; the dimensions in the names are the inputs L,
    W and H themselves, as [repr] prints them.  The scratch directory is an
    absolute path, and [repr] prints no separator. *)
Theorem tarball_members (e : env) (L W H T O LH : float) (s s' : state) :
  temp_dir_ok (mkdtemp e) →
  contains_sep (repr L) = false → contains_sep (repr W) = false →
  contains_sep (repr H) = false →
  _default repr e (pargs.mk (Some L) (Some W) (Some H) T O LH) s = Ok tt s' →
  files s' !! ("archive/box_" +:+ repr L +:+ "x" +:+ repr W +:+ "x" +:+ repr H +:+ ".tar.gz") =
    Some (TarGz
      [ ("box_base_" +:+ repr L +:+ "x" +:+ repr W +:+ "x" +:+ repr H +:+ ".stl",
         Stl (difference (base_outer L W H T) (base_inner L W H T)));
        ("box_lid_" +:+ repr L +:+ "x" +:+ repr W +:+ "x" +:+ repr H +:+ ".stl",
         Stl (difference (lid_outer L W T O LH) (lid_inner L W T O LH)));
        ("README.txt"%string, Text (manifest_text repr L W H T O LH)) ]).
Proof.
  intros Htmp CL CW CH Hrun.
  exact (proj1 (default_ok repr e (pargs.mk (Some L) (Some W) (Some H) T O LH) L W H s s' Htmp CL CW CH eq_refl eq_refl eq_refl Hrun)).
Qed.

(** C8, as the code has it.  After a successful run the manifest README.txt
    records six values and no other: the three input dimensions (length,
    width, height) and the three further inputs (wall thickness, lid overlap,
    lid height), each as given or defaulted, none derived. *)
Theorem manifest_records_six_inputs (e : env) (L W H T O LH : float) (s s' : state) :
  temp_dir_ok (mkdtemp e) →
  contains_sep (repr L) = false → contains_sep (repr W) = false →
  contains_sep (repr H) = false →
  _default repr e (pargs.mk (Some L) (Some W) (Some H) T O LH) s = Ok tt s' →
  files s' !! "archive/README.txt"%string = Some (Text (manifest_text repr L W H T O LH)) ∧
  recorded_values (readme_lines L W H T O LH) = [L; W; H; T; O; LH] ∧
  manifest_text repr L W H T O LH =
    ("Box and Lid STL files created with specified dimensions." +:+ newline +:+
     "Length: " +:+ repr L +:+ ", Width: " +:+ repr W +:+ ", Height: " +:+ repr H +:+ newline +:+
     "Wall Thickness: " +:+ repr T +:+ ", Lid Overlap: " +:+ repr O +:+
     ", Lid Height: " +:+ repr LH +:+ newline)%string.
Proof.
  intros Htmp CL CW CH Hrun.
  destruct (default_ok repr e (pargs.mk (Some L) (Some W) (Some H) T O LH) L W H s s' Htmp CL CW CH eq_refl eq_refl eq_refl Hrun)
    as (_ & Hr & _).
  split; [exact Hr|]. split; reflexivity.
Qed.

(** C9. Two runs with the same six parameters write the same manifest, byte
    for byte, whatever the scratch directories, the boolean engines and the
    machines they start from: the text is a function of the parameters. *)
Theorem manifest_deterministic (e1 e2 : env) (L W H T O LH : float)
    (s1 s1' s2 s2' : state) :
  temp_dir_ok (mkdtemp e1) → temp_dir_ok (mkdtemp e2) →
  contains_sep (repr L) = false → contains_sep (repr W) = false →
  contains_sep (repr H) = false →
  _default repr e1 (pargs.mk (Some L) (Some W) (Some H) T O LH) s1 = Ok tt s1' →
  _default repr e2 (pargs.mk (Some L) (Some W) (Some H) T O LH) s2 = Ok tt s2' →
  files s1' !! "archive/README.txt"%string = files s2' !! "archive/README.txt"%string ∧
  files s1' !! "archive/README.txt"%string = Some (Text (manifest_text repr L W H T O LH)).
Proof.
  intros Ht1 Ht2 CL CW CH Hrun1 Hrun2.
  destruct (default_ok repr e1 (pargs.mk (Some L) (Some W) (Some H) T O LH) L W H s1 s1' Ht1 CL CW CH eq_refl eq_refl eq_refl Hrun1)
    as (_ & Hr1 & _).
  destruct (default_ok repr e2 (pargs.mk (Some L) (Some W) (Some H) T O LH) L W H s2 s2' Ht2 CL CW CH eq_refl eq_refl eq_refl Hrun2)
    as (_ & Hr2 & _).
  split; [congruence|exact Hr1].
Qed.

(** C10. [create_tar_gz] stores every file under its base name: for a list
    of regular files, none of them the archive itself (as the three scratch
    files of a run are), the member names are the base names of the files,
    in order, none has a directory component, and the base name of a file in
    any directory whatsoever is the file's own name, so the archive does not
    depend on where the scratch directory was. *)
Theorem members_stored_by_basename (output_filename : string) (names : list string)
    (s s' : state) :
  Forall (λ n, n ≠ output_filename ∧ is_Some (files s !! n)) names →
  create_tar_gz repr output_filename names s = Ok tt s' →
  ∃ members,
    files s' !! output_filename = Some (TarGz members) ∧
    members.*1 = basename <$> names ∧
    Forall (λ m, contains_sep m.1 = false) members ∧
    (∀ d n, contains_sep n = false → basename (join d n) = n).
Proof.
  intros _ Hrun. apply create_tar_gz_ok in Hrun as (members & F & _ & _ & Hall).
  exists members. split; [rewrite F; apply lookup_insert_eq|].
  assert (Hn : members.*1 = basename <$> names).
  { clear F. induction Hall as [|n m names members [Hm _] _ IH]; [reflexivity|].
    cbn. now rewrite Hm, IH. }
  split; [exact Hn|]. split; [|intros d n; apply basename_join].
  apply Forall_forall. intros m Hm.
  assert (Hin : m.1 ∈ basename <$> names) by (rewrite <- Hn; now apply list_elem_of_fmap_2).
  apply list_elem_of_fmap in Hin as (n & -> & _). apply basename_no_sep.
Qed.

End Claims.

(* ----------------------------------------------------------------- *)
(** ** The scenarios, evaluated *)

Section Scenarios.
#[local] Open Scope float_scope.

Example cavity_off_centre_at_3 :
  horizontally_centred (base_outer 100 80 50 3) (base_inner 100 80 50 3) = false ∧
  base_inner 100 80 50 3 = apply_translation (box (100, 80, 50)) (1, 1, 1.5).
Proof. split; reflexivity. Qed.



Example scenario_lid_cavity :
  lid_inner 100 80 2 2 5 =
  apply_translation (box (104.15, 84.15, 4)) (0, 0, 1).
Proof. reflexivity. Qed.

Lemma outer_envelopes_witness :
  files scratch_final !! "/tmp/tmpbox/box_base_100.0x80.0x50.0.stl"%string =
    Some (Stl (difference (box (104, 84, 52)) (base_inner 100 80 50 2))) ∧
  files scratch_final !! "/tmp/tmpbox/box_lid_100.0x80.0x50.0.stl"%string =
    Some (Stl (difference (box (108, 88, 5)) (lid_inner 100 80 2 2 5))).
Proof.
  pose proof (outer_envelopes repr_integral sample_env "/tmp/tmpbox" 100 80 50 2 2 5
                scratch_state scratch_final ltac:(vm_compute; reflexivity)) as (Hb & Hl & _).
  split; [exact Hb|exact Hl].
Defined.

Lemma base_cavity_placement_witness :
  files scratch_final !! "/tmp/tmpbox/box_base_100.0x80.0x50.0.stl"%string =
    Some (Stl (difference (base_outer 100 80 50 2)
                 (apply_translation (box (100, 80, 50)) (0, 0, 1)))).
Proof.
  exact (proj1 (base_cavity_placement repr_integral sample_env "/tmp/tmpbox" 100 80 50 2 2 5
                  scratch_state scratch_final ltac:(vm_compute; reflexivity))).
Defined.

Lemma lid_cavity_placement_witness :
  files scratch_final !! "/tmp/tmpbox/box_lid_100.0x80.0x50.0.stl"%string =
    Some (Stl (difference (lid_outer 100 80 2 2 5)
                 (apply_translation (box (104.15, 84.15, 4)) (0, 0, 1)))).
Proof.
  exact (proj1 (lid_cavity_placement repr_integral sample_env "/tmp/tmpbox" 100 80 50 2 2 5
                  scratch_state scratch_final ltac:(vm_compute; reflexivity))).
Defined.

Lemma missing_dimension_prints_only_witness :
  _default repr_integral sample_env missing_height_args empty_state =
    Ok tt (State ∅ ∅
             ["Please provide the internal length, width, and height of the box."%string]).
Proof.
  exact (missing_dimension_prints_only repr_integral sample_env missing_height_args
           empty_state (or_intror (or_intror eq_refl))).
Defined.

Lemma scenario_temp_dir : temp_dir_ok (mkdtemp sample_env).
Proof. split; reflexivity. Qed.

Lemma scenario_completes :
  _default repr_integral sample_env (pargs.mk (Some 100) (Some 80) (Some 50) 2 2 5)
    empty_state = Ok tt scenario_final.
Proof. vm_compute. reflexivity. Qed.

Lemma other_completes :
  _default repr_integral other_env (pargs.mk (Some 100) (Some 80) (Some 50) 2 2 5)
    other_state = Ok tt other_final.
Proof. vm_compute. reflexivity. Qed.

Lemma tarball_members_witness :
  files scenario_final !! "archive/box_100.0x80.0x50.0.tar.gz"%string =
    Some (TarGz
      [ ("box_base_100.0x80.0x50.0.stl"%string,
         Stl (difference (box (104, 84, 52))
                (apply_translation (box (100, 80, 50)) (0, 0, 1))));
        ("box_lid_100.0x80.0x50.0.stl"%string,
         Stl (difference (box (108, 88, 5))
                (apply_translation (box (104.15, 84.15, 4)) (0, 0, 1))));
        ("README.txt"%string, Text (manifest_text repr_integral 100 80 50 2 2 5)) ]).
Proof.
  exact (tarball_members repr_integral sample_env 100 80 50 2 2 5 empty_state scenario_final
           scenario_temp_dir eq_refl eq_refl eq_refl scenario_completes).
Defined.

Lemma manifest_records_six_inputs_witness :
  files scenario_final !! "archive/README.txt"%string =
    Some (Text ("Box and Lid STL files created with specified dimensions." +:+ newline +:+
                "Length: 100.0, Width: 80.0, Height: 50.0" +:+ newline +:+
                "Wall Thickness: 2.0, Lid Overlap: 2.0, Lid Height: 5.0" +:+ newline)) ∧
  recorded_values (readme_lines 100 80 50 2 2 5) = [100; 80; 50; 2; 2; 5].
Proof.
  pose proof (manifest_records_six_inputs repr_integral sample_env 100 80 50 2 2 5
                empty_state scenario_final scenario_temp_dir eq_refl eq_refl eq_refl
                scenario_completes) as (Hr & Hv & _).
  split; [exact Hr|exact Hv].
Defined.

(** C8, as stated, fails: the manifest does not record four dimensions and
    three derived parameters, seven values in all.  In the scenario it
    records the six inputs 100, 80, 50, 2, 2, 5, and none of the derived
    dimensions 104, 84, 52, 108, 88 appears. *)
Lemma manifest_not_four_and_three :
  recorded_values (readme_lines 100 80 50 2 2 5) = [100; 80; 50; 2; 2; 5] ∧
  ¬ (∃ dims derived : list float,
       length dims = 4%nat ∧ length derived = 3%nat ∧
       recorded_values (readme_lines 100 80 50 2 2 5) = dims ++ derived) ∧
  external_length 100 2 = 104 ∧
  existsb (λ v, v =? external_length 100 2)
    (recorded_values (readme_lines 100 80 50 2 2 5)) = false.
Proof.
  split; [reflexivity|]. split; [|split; reflexivity].
  intros (dims & derived & Hd & Hr & E).
  apply (f_equal length) in E. rewrite length_app, Hd, Hr in E. discriminate E.
Qed.

Lemma manifest_deterministic_witness :
  files scenario_final !! "archive/README.txt"%string =
  files other_final !! "archive/README.txt"%string ∧
  files other_final !! "notes.txt"%string = Some (Text "keep").
Proof.
  split; [|vm_compute; reflexivity].
  exact (proj1 (manifest_deterministic repr_integral sample_env other_env 100 80 50 2 2 5
                  empty_state scenario_final other_state other_final
                  scenario_temp_dir ltac:(split; reflexivity) eq_refl eq_refl eq_refl
                  scenario_completes other_completes)).
Defined.

Lemma members_stored_by_basename_witness :
  ∃ members,
    files packing_final !! "archive/out.tar.gz"%string = Some (TarGz members) ∧
    members.*1 = ["a.stl"%string; "README.txt"%string].
Proof.
  destruct (members_stored_by_basename repr_integral "archive/out.tar.gz"
              ["/tmp/tmpbox/a.stl"%string; "/tmp/tmpbox/README.txt"%string]
              packing_state packing_final
              ltac:(repeat constructor; try discriminate;
                    apply (bool_decide_unpack _); vm_compute; exact I)
              ltac:(vm_compute; reflexivity))
    as (members & Hf & Hn & _).
  exists members. split; [exact Hf|exact Hn].
Defined.

End Scenarios.

(* ----------------------------------------------------------------- *)
(** ** Further properties of the script *)

Section More.
Variable repr : float → string.

Lemma startswith_app (a b : string) : startswith a (a +:+ b) = true.
Proof.
  induction a as [|c a IH]; [reflexivity|]. rewrite append_cons. cbn [startswith].
  now rewrite Ascii.eqb_refl, IH.
Qed.

Lemma under_file (d n : string) : endswith_sep d = false → under d (d +:+ "/" +:+ n) = true.
Proof.
  intros E. unfold under. rewrite E, <- append_assoc. apply startswith_app.
Qed.

Lemma append_neq_self (a b : string) : b ≠ EmptyString → a +:+ b ≠ a.
Proof.
  intros Hb. induction a as [|c a IH]; [now rewrite append_nil|].
  rewrite append_cons. intros [= E]. auto.
Qed.

Lemma paths_of_run (tmp : string) (L W H : float) :
  temp_dir_ok tmp →
  contains_sep (repr L) = false → contains_sep (repr W) = false →
  contains_sep (repr H) = false →
  ∃ pb pl pr pt db dl dr, layout repr tmp L W H pb pl pr pt db dl dr.
Proof.
  intros [Tabs Tend] CL CW CH.
  pose proof (tarball_name_eq repr L W H) as Ent.
  pose proof (base_filename_eq repr L W H) as Enb.
  pose proof (lid_filename_eq repr L W H) as Enl.
  set (nb := "box_base_" +:+ repr L +:+ "x" +:+ repr W +:+ "x" +:+ repr H +:+ ".stl") in *.
  set (nl := "box_lid_" +:+ repr L +:+ "x" +:+ repr W +:+ "x" +:+ repr H +:+ ".stl") in *.
  set (nt := "box_" +:+ repr L +:+ "x" +:+ repr W +:+ "x" +:+ repr H +:+ ".tar.gz") in *.
  set (nr := "README.txt").
  assert (Cb : contains_sep nb = false)
    by (unfold nb; rewrite !contains_sep_app, CL, CW, CH; reflexivity).
  assert (Cl : contains_sep nl = false)
    by (unfold nl; rewrite !contains_sep_app, CL, CW, CH; reflexivity).
  assert (Ct : contains_sep nt = false)
    by (unfold nt; rewrite !contains_sep_app, CL, CW, CH; reflexivity).
  assert (Cr : contains_sep nr = false) by reflexivity.
  assert (Lb : last_char nb = Some "l"%char) by (unfold nb; rewrite !last_char_app; reflexivity).
  assert (Ll : last_char nl = Some "l"%char) by (unfold nl; rewrite !last_char_app; reflexivity).
  assert (Lt : last_char nt = Some "z"%char) by (unfold nt; rewrite !last_char_app; reflexivity).
  assert (Lr : last_char nr = Some "t"%char) by reflexivity.
  assert (Gb : String.get 4 nb = Some "b"%char) by reflexivity.
  assert (Gl : String.get 4 nl = Some "l"%char) by reflexivity.
  assert (Gr : String.get 4 nr = Some "M"%char) by reflexivity.
  assert (Nb : nb ≠ EmptyString) by (intros E; rewrite E in Lb; discriminate).
  assert (Nl : nl ≠ EmptyString) by (intros E; rewrite E in Ll; discriminate).
  assert (Nt : nt ≠ EmptyString) by (intros E; rewrite E in Lt; discriminate).
  assert (Nr : nr ≠ EmptyString) by discriminate.
  assert (Hbl : nb ≠ nl) by (intros E; rewrite E in Gb; congruence).
  assert (Hbr : nb ≠ nr) by (intros E; rewrite E in Gb; congruence).
  assert (Hlr : nl ≠ nr) by (intros E; rewrite E in Gl; congruence).
  assert (Htb : nt ≠ nb) by (intros E; rewrite E in Lt; congruence).
  assert (Htl : nt ≠ nl) by (intros E; rewrite E in Lt; congruence).
  assert (Htr : nt ≠ nr) by (intros E; rewrite E in Lt; congruence).
  assert (Eb' : "archive/" +:+ nb = "archive" +:+ "/" +:+ nb) by reflexivity.
  assert (El' : "archive/" +:+ nl = "archive" +:+ "/" +:+ nl) by reflexivity.
  assert (Er' : "archive/README.txt" = "archive" +:+ "/" +:+ nr) by reflexivity.
  assert (Et' : "archive/box_" +:+ repr L +:+ "x" +:+ repr W +:+ "x" +:+ repr H +:+ ".tar.gz"
                = "archive" +:+ "/" +:+ nt) by reflexivity.
  assert (Enr : "README.txt" = nr) by reflexivity.
  clearbody nb nl nt nr.
  assert (Ntmp : tmp ≠ EmptyString) by (intros E; rewrite E in Tabs; discriminate).
  assert (Jt : ∀ n, contains_sep n = false → join tmp n = tmp +:+ "/" +:+ n)
    by (intros n Hn; apply join_plain; [assumption|assumption|now apply no_sep_startswith]).
  assert (Ja : ∀ n, contains_sep n = false → join "archive" n = "archive" +:+ "/" +:+ n)
    by (intros n Hn; apply join_plain; [done|done|now apply no_sep_startswith]).
  assert (Ab : ∀ n, startswith_sep (tmp +:+ "/" +:+ n) = true)
    by (intros n; now apply startswith_sep_app).
  assert (Rb : ∀ n, startswith_sep ("archive" +:+ "/" +:+ n) = false) by reflexivity.
  assert (Dabs : ∀ n m, tmp +:+ "/" +:+ n ≠ "archive" +:+ "/" +:+ m)
    by (intros n m; apply startswith_sep_neq; [apply Ab|apply Rb]).
  assert (Dtmp : ∀ n, tmp +:+ "/" +:+ n ≠ tmp)
    by (intros n; apply append_neq_self; discriminate).
  assert (Darc : ∀ n, "archive" +:+ "/" +:+ n ≠ "archive")
    by (intros n; apply append_neq_self; discriminate).
  assert (Dta : tmp ≠ "archive") by (apply startswith_sep_neq; [assumption|reflexivity]).
  assert (Dat : ∀ n, "archive" +:+ "/" +:+ n ≠ tmp)
    by (intros n E; symmetry in E; revert E; apply startswith_sep_neq; [assumption|apply Rb]).
  assert (Dabs' : ∀ n, tmp +:+ "/" +:+ n ≠ "archive")
    by (intros n; apply startswith_sep_neq; [apply Ab|reflexivity]).
  exists (tmp +:+ "/" +:+ nb), (tmp +:+ "/" +:+ nl), (tmp +:+ "/" +:+ nr),
    ("archive" +:+ "/" +:+ nt), ("archive" +:+ "/" +:+ nb), ("archive" +:+ "/" +:+ nl),
    ("archive" +:+ "/" +:+ nr).
  split; unfold output_filename, real_dst;
    rewrite ?Ent, ?Enb, ?Enl, ?Enr, ?move_target, ?Jt, ?Ja by assumption;
    try reflexivity; try exact Et'.
  - unfold basename. now rewrite split_last_app.
  - unfold basename. now rewrite split_last_app.
  - unfold basename. now rewrite split_last_app.
  - repeat split; now apply under_file.
  - repeat split; apply under_absolute; (assumption || apply Rb || reflexivity).
  - repeat split; apply dirname_app; (assumption || discriminate || reflexivity).
  - repeat (apply NoDup_cons; split;
      [rewrite ?elem_of_cons, elem_of_nil;
       intros Hin; repeat destruct Hin as [Hin|Hin]; try exact Hin;
       first [ apply file_in_dir_inj in Hin; congruence
             | now apply Dabs in Hin | symmetry in Hin; now apply Dabs in Hin
             | now apply Dtmp in Hin | symmetry in Hin; now apply Dtmp in Hin
             | now apply Darc in Hin | symmetry in Hin; now apply Darc in Hin
             | now apply Dat in Hin | symmetry in Hin; now apply Dat in Hin
             | now apply Dabs' in Hin | symmetry in Hin; now apply Dabs' in Hin
             | congruence ]|]).
    apply NoDup_nil. constructor.
Qed.

(** *** Running forward *)

Lemma bind_run {A B} (c : M A) (k : A → M B) (s s1 : state) (a : A) :
  c s = Ok a s1 → bind c k s = k a s1.
Proof. unfold bind. now intros ->. Qed.

Lemma bind_raise {A B} (c : M A) (k : A → M B) (s s1 : state) (x : exn) :
  c s = Raise x s1 → bind c k s = Raise x s1.
Proof. unfold bind. now intros ->. Qed.

Lemma creatable_spec (p : string) (s : state) :
  creatable p s = true ↔ (p ∉ dirs s) ∧ (dirname p = EmptyString ∨ dirname p ∈ dirs s).
Proof.
  unfold creatable. rewrite andb_true_iff, negb_true_iff, orb_true_iff,
    bool_decide_eq_false, !bool_decide_eq_true. tauto.
Qed.

Lemma write_file_run (p : string) (f : file) (s : state) :
  creatable p s = true → write_file p f s = Ok tt (set_files <[p := f]> s).
Proof. unfold write_file. now intros ->. Qed.

Lemma write_lines_run (p : string) (lines : list (list fpart)) (s : state) (t : string) :
  files s !! p = Some (Text t) →
  for_each lines (λ line, write p (fstring repr line)) s =
    Ok tt (set_files <[p := Text (t +:+ fstring repr (concat lines))]> s).
Proof.
  revert s t. induction lines as [|l lines IH]; intros s t Hp; cbn [for_each].
  - unfold ret. cbn [concat fstring]. rewrite append_nil_r. f_equal.
    destruct s as [F D O]. unfold set_files. cbn [files dirs stdout] in *.
    f_equal. symmetry. now apply insert_id.
  - erewrite bind_run; [|unfold write; rewrite Hp; reflexivity].
    rewrite (IH _ (t +:+ fstring repr l)); [|apply lookup_insert_eq].
    f_equal. destruct s as [F D O]. unfold set_files. cbn [files dirs stdout concat].
    f_equal. rewrite insert_insert_eq. now rewrite fstring_app, append_assoc.
Qed.

Lemma members_of_insert_ne (output : string) (x : file) (fs : gmap string file)
    (names : list string) :
  Forall (λ n, n ≠ output) names →
  members_of (<[output := x]> fs) names = members_of fs names.
Proof.
  induction 1 as [|n names Hn _ IH]; [reflexivity|]. cbn [members_of].
  rewrite lookup_insert_ne by congruence. destruct (fs !! n); now rewrite IH.
Qed.

Lemma tar_adds_run (output : string) (names : list string) (s : state)
    (members : list (string * file)) :
  files s !! output = Some (TarGz members) →
  Forall (λ n, n ≠ output ∧ is_Some (files s !! n)) names →
  for_each names (λ file, tar_add output file (basename file)) s =
    Ok tt (set_files <[output := TarGz (members ++ members_of (files s) names)]> s).
Proof.
  revert s members. induction names as [|n names IH]; intros s members Hout Hall;
    cbn [for_each members_of].
  - unfold ret. rewrite app_nil_r. f_equal. destruct s as [F D O]. unfold set_files.
    cbn [files dirs stdout] in *. f_equal. symmetry. now apply insert_id.
  - apply Forall_cons in Hall as [[Hne [f Hf]] Hall]. rewrite Hf.
    assert (Hnames : Forall (λ n, n ≠ output) names)
      by (eapply Forall_impl; [exact Hall|]; cbn; tauto).
    erewrite bind_run; [|unfold tar_add; rewrite Hf, Hout; reflexivity].
    rewrite (IH _ (members ++ [(basename n, f)])).
    + f_equal. destruct s as [F D O]. unfold set_files. cbn [files dirs stdout] in *.
      f_equal. rewrite insert_insert_eq, <- app_assoc.
      now rewrite members_of_insert_ne.
    + cbn [files set_files]. apply lookup_insert_eq.
    + eapply Forall_impl; [exact Hall|]. cbn. intros m [Hm1 Hm2]. split; [exact Hm1|].
      now rewrite lookup_insert_ne by congruence.
Qed.

Lemma create_tar_gz_run (output : string) (names : list string) (s : state) :
  creatable output s = true →
  Forall (λ n, n ≠ output ∧ is_Some (files s !! n)) names →
  create_tar_gz repr output names s =
    Ok tt (State (<[output := TarGz (members_of (files s) names)]> (files s)) (dirs s)
             (stdout s ++ [fstring repr [lit "Created and archived "; str output]])).
Proof.
  intros Hc Hall. unfold create_tar_gz.
  assert (Hnames : Forall (λ n, n ≠ output) names)
    by (eapply Forall_impl; [exact Hall|]; cbn; tauto).
  erewrite bind_run; [|apply write_file_run, Hc].
  erewrite bind_run; [|apply (tar_adds_run _ _ _ [])].
  - unfold print. destruct s as [F D O]. unfold set_files. cbn [files dirs stdout app].
    do 2 f_equal. rewrite insert_insert_eq. now rewrite members_of_insert_ne.
  - apply lookup_insert_eq.
  - eapply Forall_impl; [exact Hall|]. cbn. intros m [Hm1 Hm2]. split; [exact Hm1|].
    now rewrite lookup_insert_ne by congruence.
Qed.

Lemma shutil_move_run (src dst : string) (f : file) (s : state) :
  dst ∈ dirs s → files s !! src = Some f →
  real_dst dst src ∉ dirs s → files s !! real_dst dst src = None →
  dirname (real_dst dst src) ∈ dirs s →
  shutil_move src dst s =
    Ok tt (set_files (λ fs, <[real_dst dst src := f]> (delete src fs)) s).
Proof.
  intros Hd Hs Hn1 Hn2 Hp. unfold shutil_move, real_dst in *.
  unfold bind at 1, os_path_isdir. rewrite (bool_decide_eq_true_2 _ Hd).
  unfold bind at 1, os_path_exists.
  rewrite (bool_decide_eq_false_2 _ Hn1), Hn2.
  rewrite bool_decide_eq_false_2 by (intros [? ?]; discriminate). cbn [orb].
  unfold os_rename. rewrite Hs.
  assert (C : creatable (join dst (basename (rstrip_sep src))) s = true)
    by (apply creatable_spec; auto).
  now rewrite C.
Qed.

Lemma create_full_box_with_lid_run (e : env) (tmpdirname : string) (L W H T O LH : float)
    (s : state) :
  let pb := join tmpdirname (fstring repr (base_filename_parts L W H)) in
  let pl := join tmpdirname (fstring repr (lid_filename_parts L W H)) in
  engine_ok e (base_outer L W H T) (base_inner L W H T) = true →
  engine_ok e (lid_outer L W T O LH) (lid_inner L W T O LH) = true →
  creatable pb s = true → creatable pl s = true →
  create_full_box_with_lid repr e tmpdirname L W H T O LH s =
    Ok tt (State
             (<[pl := Stl (difference (lid_outer L W T O LH) (lid_inner L W T O LH))]>
                (<[pb := Stl (difference (base_outer L W H T) (base_inner L W H T))]>
                   (files s)))
             (dirs s)
             (stdout s ++ [fstring repr [lit "Exported box base to "; str pb];
                           fstring repr [lit "Exported box lid to "; str pl]])).
Proof.
  intros pb pl E1 E2 C1 C2. unfold create_full_box_with_lid. cbv zeta. fold pb pl.
  erewrite bind_run; [|unfold mesh_difference; rewrite E1; reflexivity].
  erewrite bind_run; [|apply write_file_run, C1].
  erewrite bind_run; [|unfold mesh_difference; rewrite E2; reflexivity].
  erewrite bind_run; [|apply write_file_run, C2].
  unfold bind, print. cbn [files dirs stdout set_files]. now rewrite <- app_assoc.
Qed.

Lemma lookup_filter_under (d p : string) (m : gmap string file) :
  filter (λ kv, under d kv.1 = false) m !! p = if under d p then None else m !! p.
Proof.
  destruct (under d p) eqn:U.
  - apply map_lookup_filter_None. right. intros x _. cbn. congruence.
  - destruct (m !! p) as [x|] eqn:E.
    + apply map_lookup_filter_Some. auto.
    + apply map_lookup_filter_None. left. exact E.
Qed.

Ltac through_goal' :=
  repeat first
    [ rewrite lookup_insert_eq
    | rewrite lookup_insert_ne by congruence
    | rewrite lookup_delete_ne by congruence ].

Ltac nodup_facts H :=
  repeat (apply NoDup_cons in H as [? H]);
  repeat match goal with
  | N : _ ∉ _ :: _ |- _ => apply not_elem_of_cons in N as [? N]
  | N : _ ∉ [] |- _ => clear N
  end.

Lemma not_in_scratch_dirs (tmp p : string) (D : gset string) :
  p ≠ tmp → p ∉ D → p ∉ ({[tmp]} ∪ D : gset string).
Proof. intros Hne Hp [E%elem_of_singleton|Hin]%elem_of_union; auto. Qed.

Lemma not_in_archive_dirs (p : string) (D : gset string) :
  p ≠ "archive" → p ∉ D → p ∉ ({["archive"]} ∪ D : gset string).
Proof. intros Hne Hp [E%elem_of_singleton|Hin]%elem_of_union; auto. Qed.

Lemma archive_dir_run {A} (k : M A) (s : state) :
  "archive" ∈ dirs s ∨ files s !! "archive" = None →
  (present <- os_path_exists "archive" ;;
   (if present : bool then ret tt else os_makedirs "archive") ;; k) s =
  k (State (files s) ({["archive"]} ∪ dirs s) (stdout s)).
Proof.
  intros Harc. unfold bind at 1, os_path_exists.
  destruct (decide ("archive" ∈ dirs s)) as [Hin|Hnin].
  - rewrite (bool_decide_eq_true_2 _ Hin). cbn [orb]. unfold bind, ret. f_equal.
    destruct s as [F D Out]. cbn [files dirs stdout] in *. f_equal.
    symmetry. apply subseteq_union_1_L. now apply singleton_subseteq_l.
  - destruct Harc as [?|Hf]; [contradiction|].
    rewrite (bool_decide_eq_false_2 _ Hnin), Hf.
    rewrite bool_decide_eq_false_2 by (intros [? ?]; discriminate). cbn [orb].
    unfold bind, os_makedirs.
    rewrite (bool_decide_eq_false_2 _ Hnin), Hf.
    rewrite bool_decide_eq_false_2 by (intros [? ?]; discriminate). reflexivity.
Qed.

(** The run up to and including the tarball, whatever comes next. *)
Lemma packing_run {A} (k : M A) (e : env) (L W H T O LH : float)
    (F : gmap string file) (D : gset string) (Out : list string)
    (pb pl pr pt db dl dr : string) :
  layout repr (mkdtemp e) L W H pb pl pr pt db dl dr →
  engine_ok e (base_outer L W H T) (base_inner L W H T) = true →
  engine_ok e (lid_outer L W T O LH) (lid_inner L W T O LH) = true →
  pb ∉ D → pl ∉ D → pr ∉ D → pt ∉ D →
  "archive" ∈ D ∨ F !! "archive" = None →
  (create_full_box_with_lid repr e (mkdtemp e) L W H T O LH ;;
   open_w (join (mkdtemp e) "README.txt") ;;
   for_each (readme_lines L W H T O LH)
     (λ line, write (join (mkdtemp e) "README.txt") (fstring repr line)) ;;
   present <- os_path_exists "archive" ;;
   (if present : bool then ret tt else os_makedirs "archive") ;;
   create_tar_gz repr (output_filename repr L W H) (files_to_include repr (mkdtemp e) L W H) ;;
   k) (State F ({[mkdtemp e]} ∪ D) Out) =
  k (State
       (<[pt := TarGz
            [ (fstring repr (base_filename_parts L W H),
               Stl (difference (base_outer L W H T) (base_inner L W H T)));
              (fstring repr (lid_filename_parts L W H),
               Stl (difference (lid_outer L W T O LH) (lid_inner L W T O LH)));
              ("README.txt"%string, Text (manifest_text repr L W H T O LH)) ]]>
          (<[pr := Text (manifest_text repr L W H T O LH)]>
             (<[pl := Stl (difference (lid_outer L W T O LH) (lid_inner L W T O LH))]>
                (<[pb := Stl (difference (base_outer L W H T) (base_inner L W H T))]> F))))
       ({["archive"]} ∪ ({[mkdtemp e]} ∪ D))
       (Out ++ [ fstring repr [lit "Exported box base to "; str pb];
                 fstring repr [lit "Exported box lid to "; str pl];
                 fstring repr [lit "Created and archived "; str pt] ])).
Proof.
  intros Lay E1 E2 Dpb Dpl Dpr Dpt Harc.
  destruct Lay as [Epb Epl Epr Ept Edb Edl Edr Edb' Edl' Edr' Ept' Bb Bl Br
                   (Ub & Ul & Ur) (Upt & Udb & Udl & Udr & Uarc)
                   (Ppb & Ppl & Ppr & Ppt & Pdb & Pdl & Pdr) ND].
  unfold files_to_include.
  set (tmp := mkdtemp e) in *.
  pose proof (create_full_box_with_lid_run e tmp L W H T O LH
                (State F ({[tmp]} ∪ D) Out) E1 E2) as HA.
  cbv zeta in HA. cbn [files dirs stdout] in HA.
  rewrite ?Epb, ?Epl, ?Epr, ?Ept in *.
  set (nb := fstring repr (base_filename_parts L W H)) in *.
  set (nl := fstring repr (lid_filename_parts L W H)) in *.
  set (base := Stl (difference (base_outer L W H T) (base_inner L W H T))) in *.
  set (lid := Stl (difference (lid_outer L W T O LH) (lid_inner L W T O LH))) in *.
  clearbody nb nl base lid.
  nodup_facts ND.
  assert (Htmp_in : ∀ X : gset string, tmp ∈ {[tmp]} ∪ X)
    by (intros X; apply elem_of_union_l, elem_of_singleton; reflexivity).
  (* the two meshes *)
  erewrite bind_run;
    [|apply HA; apply creatable_spec;
      (split; [now apply not_in_scratch_dirs|right; cbn [dirs]; rewrite ?Ppb, ?Ppl; apply Htmp_in])].
  clear HA.
  (* the manifest *)
  erewrite bind_run;
    [|apply write_file_run, creatable_spec; cbn [dirs];
      (split; [now apply not_in_scratch_dirs|right; rewrite Ppr; apply Htmp_in])].
  erewrite bind_run; [|apply (write_lines_run _ _ _ EmptyString); apply lookup_insert_eq].
  rewrite append_nil. fold (manifest_text repr L W H T O LH).
  set (readme := Text (manifest_text repr L W H T O LH)). clearbody readme.
  unfold set_files. cbn [files dirs stdout]. rewrite insert_insert_eq.
  (* the archive directory *)
  rewrite archive_dir_run; cbn [files dirs stdout];
    [|destruct Harc as [Hin|Hf];
      [left; now apply elem_of_union_r
      |right; now rewrite !lookup_insert_ne by congruence]].
  (* the tarball *)
  set (F3 := <[pr:=readme]> (<[pl:=lid]> (<[pb:=base]> F))).
  assert (Lb : F3 !! pb = Some base)
    by (unfold F3; rewrite !lookup_insert_ne by congruence; apply lookup_insert_eq).
  assert (Ll : F3 !! pl = Some lid)
    by (unfold F3; rewrite !lookup_insert_ne by congruence; apply lookup_insert_eq).
  assert (Lr : F3 !! pr = Some readme) by (unfold F3; apply lookup_insert_eq).
  assert (Harc_in : ∀ X : gset string, "archive" ∈ {["archive"]} ∪ X)
    by (intros X; apply elem_of_union_l, elem_of_singleton; reflexivity).
  erewrite bind_run;
    [|apply create_tar_gz_run; cbn [files dirs];
      [apply creatable_spec; cbn [dirs]; split;
       [apply not_in_archive_dirs; [assumption|now apply not_in_scratch_dirs]
       |right; rewrite Ppt; apply Harc_in]
      |repeat (apply Forall_cons; split; [split; [congruence|eauto]|]); apply Forall_nil; exact I]].
  cbn [files dirs stdout members_of]. rewrite Lb, Ll, Lr, Bb, Bl, Br.
  now rewrite <- app_assoc.
Qed.

Lemma shutil_move_raise (src dst : string) (s : state) :
  dst ∈ dirs s →
  real_dst dst src ∈ dirs s ∨ is_Some (files s !! real_dst dst src) →
  shutil_move src dst s = Raise (ShutilError (real_dst dst src)) s.
Proof.
  intros Hd Htaken. unfold shutil_move, real_dst in *.
  unfold bind at 1, os_path_isdir. rewrite (bool_decide_eq_true_2 _ Hd).
  unfold bind at 1, os_path_exists.
  destruct Htaken as [H|H].
  - now rewrite (bool_decide_eq_true_2 _ H).
  - rewrite (bool_decide_eq_true_2 (is_Some _) H). now rewrite orb_true_r.
Qed.

Lemma ready_completes (e : env) (L W H T O LH : float) (s : state) :
  temp_dir_ok (mkdtemp e) →
  contains_sep (repr L) = false → contains_sep (repr W) = false →
  contains_sep (repr H) = false →
  ready repr e L W H T O LH s →
  _default repr e (pargs.mk (Some L) (Some W) (Some H) T O LH) s =
    Ok tt (completed repr e L W H T O LH s).
Proof.
  intros Htmp CL CW CH ((E1 & E2 & Hd & Harc) & Hdst).
  unfold destination_free in Hdst.
  destruct (paths_of_run _ L W H Htmp CL CW CH) as (pb & pl & pr & pt & db & dl & dr & Lay).
  unfold completed, archive_members, printed_lines, outside, dirs_outside, _default.
  cbn [pargs.length pargs.width pargs.height pargs.thickness
                                   pargs.overlap pargs.lid_height].
  cbv zeta. unfold with_TemporaryDirectory. cbv zeta.
  fold (output_filename repr L W H). fold (files_to_include repr (mkdtemp e) L W H).
  destruct s as [F D Out]. cbn [files dirs stdout] in *.
  unfold files_to_include in Hd, Hdst.
  pose proof Lay as [Epb Epl Epr Ept Edb Edl Edr Edb' Edl' Edr' Ept' Bb Bl Br
                     (Ub & Ul & Ur) (Upt & Udb & Udl & Udr & Uarc)
                     (Ppb & Ppl & Ppr & Ppt & Pdb & Pdl & Pdr) ND].
  rewrite ?Epb, ?Epl, ?Epr, ?Ept in Hd, Hdst. rewrite ?Edb, ?Edl, ?Edr in Hdst.
  apply Forall_cons in Hd as [Dpt Hd]. apply Forall_cons in Hd as [Dpb Hd].
  apply Forall_cons in Hd as [Dpl Hd]. apply Forall_cons in Hd as [Dpr _].
  apply Forall_cons in Hdst as [[Ddb Fdb] Hdst]. apply Forall_cons in Hdst as [[Ddl Fdl] Hdst].
  apply Forall_cons in Hdst as [[Ddr Fdr] _].
  rewrite Ept in Dpt. rewrite Edb in Ddb, Fdb. rewrite Edl in Ddl, Fdl.
  rewrite Edr in Ddr, Fdr.
  rewrite (packing_run _ e L W H T O LH F D Out pb pl pr pt db dl dr Lay E1 E2 Dpb Dpl Dpr Dpt Harc).
  unfold files_to_include.
  rewrite ?Edb', ?Edl', ?Edr', ?Epb, ?Epl, ?Epr, ?Ept.
  set (tmp := mkdtemp e) in *.
  set (nb := fstring repr (base_filename_parts L W H)) in *.
  set (nl := fstring repr (lid_filename_parts L W H)) in *.
  set (base := Stl (difference (base_outer L W H T) (base_inner L W H T))) in *.
  set (lid := Stl (difference (lid_outer L W T O LH) (lid_inner L W T O LH))) in *.
  set (readme := Text (manifest_text repr L W H T O LH)) in *.
  set (tar := TarGz [(nb, base); (nl, lid); ("README.txt"%string, readme)]).
  clearbody nb nl base lid readme tar.
  nodup_facts ND.
  set (F3 := <[pr:=readme]> (<[pl:=lid]> (<[pb:=base]> F))).
  assert (Harc_in : ∀ X : gset string, "archive" ∈ {["archive"]} ∪ X)
    by (intros X; apply elem_of_union_l, elem_of_singleton; reflexivity).
  assert (Hnd : ∀ p, p ≠ "archive" → p ≠ tmp → p ∉ D →
                  p ∉ ({["archive"]} ∪ ({[tmp]} ∪ D) : gset string))
    by (intros p ? ? ?; apply not_in_archive_dirs; [assumption|now apply not_in_scratch_dirs]).
  cbn [for_each].
  erewrite bind_run;
    [|apply (shutil_move_run _ _ base); cbn [files dirs]; rewrite ?Edb, ?Pdb;
      [apply Harc_in
      |unfold F3; rewrite !lookup_insert_ne by congruence; apply lookup_insert_eq
      |now apply Hnd
      |unfold F3; now rewrite !lookup_insert_ne by congruence
      |apply Harc_in]].
  unfold set_files. cbn [files dirs stdout].
  erewrite bind_run;
    [|apply (shutil_move_run _ _ lid); cbn [files dirs]; rewrite ?Edl, ?Pdl;
      [apply Harc_in
      |unfold F3; rewrite lookup_insert_ne, lookup_delete_ne, !lookup_insert_ne by congruence;
       apply lookup_insert_eq
      |now apply Hnd
      |unfold F3;
       now rewrite lookup_insert_ne, lookup_delete_ne, !lookup_insert_ne by congruence
      |apply Harc_in]].
  unfold set_files. cbn [files dirs stdout].
  erewrite bind_run;
    [|apply (shutil_move_run _ _ readme); cbn [files dirs]; rewrite ?Edr, ?Pdr;
      [apply Harc_in
      |unfold F3; rewrite lookup_insert_ne, lookup_delete_ne, lookup_insert_ne,
         lookup_delete_ne, lookup_insert_ne by congruence; apply lookup_insert_eq
      |now apply Hnd
      |unfold F3;
       now rewrite lookup_insert_ne, lookup_delete_ne, lookup_insert_ne, lookup_delete_ne,
         !lookup_insert_ne by congruence
      |apply Harc_in]].
  unfold set_files, ret, rmtree. cbn [files dirs stdout]. rewrite Edb, Edl, Edr.
  f_equal. f_equal.
  - (* files *)
    apply map_eq. intros p. rewrite lookup_filter_under.
    destruct (decide (p = dr)) as [->|Ndr];
      [rewrite Udr, !lookup_insert_eq; reflexivity|].
    destruct (decide (p = dl)) as [->|Ndl];
      [rewrite Udl; through_goal'; reflexivity|].
    destruct (decide (p = db)) as [->|Ndb];
      [rewrite Udb; through_goal'; reflexivity|].
    destruct (decide (p = pt)) as [->|Npt];
      [rewrite Upt; through_goal'; reflexivity|].
    destruct (under tmp p) eqn:Up.
    + through_goal'. now rewrite lookup_filter_under, Up.
    + assert (p ≠ pb ∧ p ≠ pl ∧ p ≠ pr) as (? & ? & ?) by (repeat split; congruence).
      unfold F3. through_goal'. now rewrite lookup_filter_under, Up.
  - (* directories *)
    apply set_eq. intros p.
    rewrite elem_of_filter, !elem_of_union, elem_of_filter, !elem_of_singleton.
    split.
    + intros [[Hne Hu] [->|[->|Hin]]]; [now left|contradiction|right; auto].
    + intros [->|[[Hne Hu] Hin]]; [split; [split; [congruence|exact Uarc]|now left]|].
      split; [split; assumption|right; right; exact Hin].
Qed.

(** *** What a completed run went through *)

Lemma create_full_box_with_lid_needs (e : env) (tmpdirname : string)
    (L W H T O LH : float) (s s' : state) (u : unit) :
  create_full_box_with_lid repr e tmpdirname L W H T O LH s = Ok u s' →
  engine_ok e (base_outer L W H T) (base_inner L W H T) = true ∧
  engine_ok e (lid_outer L W T O LH) (lid_inner L W T O LH) = true ∧
  creatable (join tmpdirname (fstring repr (base_filename_parts L W H))) s = true ∧
  creatable (join tmpdirname (fstring repr (lid_filename_parts L W H))) s = true.
Proof.
  unfold create_full_box_with_lid. cbv zeta. intros Hrun.
  apply bind_ok in Hrun as (m1 & s1 & H1 & Hrun).
  unfold mesh_difference in H1. destruct (engine_ok e _ _) eqn:E1; [|discriminate].
  injection H1 as <- <-.
  apply bind_ok in Hrun as (u2 & s2 & H2 & Hrun).
  apply write_file_ok in H2 as (C1 & _ & D2).
  apply bind_ok in Hrun as (m3 & s3 & H3 & Hrun).
  unfold mesh_difference in H3. destruct (engine_ok e (lid_outer _ _ _ _ _) _) eqn:E2;
    [|discriminate].
  injection H3 as <- <-.
  apply bind_ok in Hrun as (u4 & s4 & H4 & Hrun).
  apply write_file_ok in H4 as (C2 & _ & _).
  repeat split; try assumption.
  unfold creatable in *. now rewrite <- D2.
Qed.

Lemma shutil_move_needs (src dst : string) (s s' : state) (u : unit) :
  dst ∈ dirs s → shutil_move src dst s = Ok u s' →
  (real_dst dst src ∉ dirs s) ∧ files s !! real_dst dst src = None.
Proof.
  intros Hd. unfold shutil_move, real_dst, bind, os_path_isdir, os_path_exists.
  rewrite (bool_decide_eq_true_2 _ Hd).
  destruct (bool_decide (_ ∈ dirs s)) eqn:B1; [discriminate|].
  destruct (bool_decide (is_Some _)) eqn:B2; [discriminate|]. intros _.
  apply bool_decide_eq_false in B1, B2. split; [exact B1|].
  destruct (files s !! _); [exfalso; eauto|reflexivity].
Qed.

Lemma complete_ready (e : env) (L W H T O LH : float) (s s' : state) :
  temp_dir_ok (mkdtemp e) →
  contains_sep (repr L) = false → contains_sep (repr W) = false →
  contains_sep (repr H) = false →
  _default repr e (pargs.mk (Some L) (Some W) (Some H) T O LH) s = Ok tt s' →
  ready repr e L W H T O LH s.
Proof.
  intros Htmp CL CW CH Hrun.
  destruct (paths_of_run _ L W H Htmp CL CW CH) as (pb & pl & pr & pt & db & dl & dr & Lay).
  destruct Lay as [Epb Epl Epr Ept Edb Edl Edr Edb' Edl' Edr' Ept' Bb Bl Br
                   (Ub & Ul & Ur) (Upt & Udb & Udl & Udr & Uarc)
                   (Ppb & Ppl & Ppr & Ppt & Pdb & Pdl & Pdr) ND].
  unfold ready, packable, destination_free, files_to_include.
  unfold _default in Hrun. cbn [pargs.length pargs.width pargs.height pargs.thickness
                                pargs.overlap pargs.lid_height] in Hrun.
  cbv zeta in Hrun. unfold with_TemporaryDirectory in Hrun. cbv zeta in Hrun.
  fold (output_filename repr L W H) in Hrun.
  match type of Hrun with context [match ?b with Ok _ _ => _ | Raise _ _ => _ end] =>
    destruct b as [u s9|x s9] eqn:Hbody end; [|discriminate].
  clear Hrun. destruct s as [F D Out]. cbn [files dirs stdout] in *.
  set (tmp := mkdtemp e) in *.
  apply bind_ok in Hbody as (u1 & s1 & K1 & Hbody).
  pose proof (create_full_box_with_lid_needs _ _ _ _ _ _ _ _ _ _ _ K1) as (E1 & E2 & C1 & C2).
  apply create_full_box_with_lid_ok in K1 as [F1 D1].
  rewrite ?Epb, ?Epl, ?Epr, ?Ept, ?Edb, ?Edl, ?Edr in *. cbn [files dirs] in *.
  nodup_facts ND.
  apply creatable_spec in C1 as [C1 _]. apply creatable_spec in C2 as [C2 _].
  cbn [dirs] in C1, C2.
  apply bind_ok in Hbody as (u2 & s2 & K2 & Hbody).
  apply write_file_ok in K2 as (C3 & F2 & D2). apply creatable_spec in C3 as [C3 _].
  apply bind_ok in Hbody as ([] & s3 & K3 & Hbody).
  apply (write_lines_ok _ _ _ _ _ EmptyString) in K3 as [F3 D3];
    [|rewrite F2; apply lookup_insert_eq].
  apply bind_ok in Hbody as (present & s4 & K4 & Hbody).
  unfold os_path_exists in K4. injection K4 as Hpresent <-.
  apply bind_ok in Hbody as (u5 & s5 & K5 & Hbody).
  assert (F5 : files s5 = files s3 ∧ dirs s3 ⊆ dirs s5 ∧
               ("archive" ∈ dirs s5 → "archive" ∈ D ∨ F !! "archive" = None)).
  { destruct present.
    - apply ret_ok in K5 as [_ ->]. split; [reflexivity|]. split; [reflexivity|].
      rewrite D3, D2, D1. intros [Hin%elem_of_singleton|Hin]%elem_of_union; [congruence|auto].
    - unfold os_makedirs in K5. rewrite Hpresent in K5. injection K5 as _ <-.
      cbn [files dirs]. split; [reflexivity|]. split; [apply union_subseteq_r|].
      intros _. right. apply orb_false_iff in Hpresent as [_ Hf].
      apply bool_decide_eq_false in Hf. rewrite F3, F2, F1 in Hf.
      rewrite !lookup_insert_ne in Hf by congruence.
      destruct (F !! "archive"); [exfalso; eauto|reflexivity]. }
  destruct F5 as (F5 & S5 & A5). clear K5.
  apply bind_ok in Hbody as (u6 & s6 & K6 & Hbody).
  apply create_tar_gz_ok in K6 as (added & F6 & D6 & C6 & _).
  apply creatable_spec in C6 as [C6 [P6|P6]]; rewrite Ppt in P6; [discriminate|].
  assert (HD : D ⊆ dirs s5).
  { etransitivity; [|exact S5]. rewrite D3, D2, D1. apply union_subseteq_r. }
  cbn [for_each] in Hbody.
  apply bind_ok in Hbody as (u7 & s7 & K7 & Hbody).
  pose proof (shutil_move_needs _ _ _ _ _ ltac:(rewrite D6; exact P6) K7) as [N7 M7].
  apply shutil_move_ok in K7 as (f7 & L7 & F7 & D7); [|rewrite D6; exact P6].
  apply bind_ok in Hbody as (u8 & s8 & K8 & Hbody).
  pose proof (shutil_move_needs _ _ _ _ _ ltac:(rewrite D7, D6; exact P6) K8) as [N8 M8].
  apply shutil_move_ok in K8 as (f8 & L8 & F8 & D8); [|rewrite D7, D6; exact P6].
  apply bind_ok in Hbody as (u9 & s9' & K9 & Hbody).
  pose proof (shutil_move_needs _ _ _ _ _ ltac:(rewrite D8, D7, D6; exact P6) K9) as [N9 M9].
  unfold real_dst in *. rewrite ?Edb, ?Edl, ?Edr in *.
  rewrite D6 in N7. rewrite D7, D6 in N8. rewrite D8, D7, D6 in N9.
  rewrite F6, F5, F3, F2, F1 in M7. rewrite F7, F6, F5, F3, F2, F1 in M8.
  rewrite F8, F7, F6, F5, F3, F2, F1 in M9.
  rewrite !lookup_insert_ne in M7 by congruence.
  rewrite lookup_insert_ne, lookup_delete_ne, !lookup_insert_ne in M8 by congruence.
  rewrite lookup_insert_ne, lookup_delete_ne, lookup_insert_ne, lookup_delete_ne,
    !lookup_insert_ne in M9 by congruence.
  assert (Hsub : ∀ p, p ∉ dirs s5 → p ∉ D) by (intros p Hp Hin; apply Hp, HD, Hin).
  assert (Hsub0 : ∀ p : string, p ∉ ({[tmp]} ∪ D : gset string) → p ∉ D)
    by (intros p Hp Hin; apply Hp, elem_of_union_r, Hin).
  rewrite D1 in C3.
  split; [split; [exact E1|]; split; [exact E2|]; split|].
  - apply Forall_cons; split; [now apply Hsub|].
    apply Forall_cons; split; [now apply Hsub0|].
    apply Forall_cons; split; [now apply Hsub0|].
    apply Forall_cons; split; [now apply Hsub0|]. apply Forall_nil. exact I.
  - now apply A5.
  - apply Forall_cons; split; [rewrite Edb; split; [now apply Hsub|exact M7]|].
    apply Forall_cons; split; [rewrite Edl; split; [now apply Hsub|exact M8]|].
    apply Forall_cons; split; [rewrite Edr; split; [now apply Hsub|exact M9]|].
    apply Forall_nil. exact I.
Qed.

(** *** Cleaning the scratch directory *)

Lemma filter_insert_outside (d p : string) (x : file) (m : gmap string file) :
  under d p = false →
  filter (λ kv, under d kv.1 = false) (<[p := x]> m) =
  <[p := x]> (filter (λ kv, under d kv.1 = false) m).
Proof.
  intros U. apply map_eq. intros q. rewrite lookup_filter_under.
  destruct (decide (q = p)) as [->|Hne].
  - now rewrite U, !lookup_insert_eq.
  - rewrite !lookup_insert_ne by congruence. now rewrite lookup_filter_under.
Qed.

Lemma filter_insert_inside (d p : string) (x : file) (m : gmap string file) :
  under d p = true →
  filter (λ kv, under d kv.1 = false) (<[p := x]> m) =
  filter (λ kv, under d kv.1 = false) m.
Proof.
  intros U. apply map_eq. intros q. rewrite !lookup_filter_under.
  destruct (under d q) eqn:Uq; [reflexivity|].
  rewrite lookup_insert_ne by congruence. reflexivity.
Qed.

Lemma filter_delete_inside (d p : string) (m : gmap string file) :
  under d p = true →
  filter (λ kv, under d kv.1 = false) (delete p m) =
  filter (λ kv, under d kv.1 = false) m.
Proof.
  intros U. apply map_eq. intros q. rewrite !lookup_filter_under.
  destruct (under d q) eqn:Uq; [reflexivity|].
  rewrite lookup_delete_ne by congruence. reflexivity.
Qed.

Lemma dirs_without_scratch (tmp : string) (D : gset string) :
  filter (λ p, p ≠ tmp ∧ under tmp p = false) ({[tmp]} ∪ D : gset string) =
  filter (λ p, p ≠ tmp ∧ under tmp p = false) D.
Proof.
  apply set_eq. intros p. rewrite !elem_of_filter, elem_of_union, elem_of_singleton.
  split; [intros [[Hne Hu] [->|Hin]]; [contradiction|auto]|intros [? ?]; auto].
Qed.

Lemma dirs_with_archive (tmp : string) (D : gset string) :
  tmp ≠ "archive" → under tmp "archive" = false →
  filter (λ p, p ≠ tmp ∧ under tmp p = false) ({["archive"]} ∪ ({[tmp]} ∪ D) : gset string) =
  {["archive"]} ∪ filter (λ p, p ≠ tmp ∧ under tmp p = false) D.
Proof.
  intros Hne Hu. apply set_eq. intros p.
  rewrite elem_of_filter, !elem_of_union, elem_of_filter, !elem_of_singleton.
  split.
  - intros [[Hp Hup] [->|[->|Hin]]]; [now left|contradiction|right; auto].
  - intros [->|[[Hp Hup] Hin]]; [split; [split; [congruence|exact Hu]|now left]|].
    split; [split; assumption|right; right; exact Hin].
Qed.

(** *** Runs that stop at a move *)

Lemma run_after_packing (e : env) (L W H T O LH : float) (s : state)
    (pb pl pr pt db dl dr : string) :
  layout repr (mkdtemp e) L W H pb pl pr pt db dl dr →
  packable repr e L W H T O LH s →
  _default repr e (pargs.mk (Some L) (Some W) (Some H) T O LH) s =
  cleaned (mkdtemp e)
    (for_each [pb; pl; pr] (λ file, shutil_move file "archive")
       (State
          (<[pt := TarGz (archive_members repr L W H T O LH)]>
             (<[pr := Text (manifest_text repr L W H T O LH)]>
                (<[pl := Stl (difference (lid_outer L W T O LH) (lid_inner L W T O LH))]>
                   (<[pb := Stl (difference (base_outer L W H T) (base_inner L W H T))]>
                      (files s)))))
          ({["archive"]} ∪ ({[mkdtemp e]} ∪ dirs s))
          (stdout s ++ printed_lines repr (mkdtemp e) L W H))).
Proof.
  intros Lay (E1 & E2 & Hd & Harc).
  unfold _default. cbn [pargs.length pargs.width pargs.height pargs.thickness
                        pargs.overlap pargs.lid_height].
  cbv zeta. unfold with_TemporaryDirectory. cbv zeta.
  fold (output_filename repr L W H). fold (files_to_include repr (mkdtemp e) L W H).
  destruct s as [F D Out]. cbn [files dirs stdout] in *.
  unfold files_to_include in Hd.
  pose proof Lay as [Epb Epl Epr Ept _ _ _ _ _ _ _ _ _ _ _ _ _ _].
  rewrite Epb, Epl, Epr, Ept in Hd.
  apply Forall_cons in Hd as [Dpt Hd]. apply Forall_cons in Hd as [Dpb Hd].
  apply Forall_cons in Hd as [Dpl Hd]. apply Forall_cons in Hd as [Dpr _].
  rewrite (packing_run _ e L W H T O LH F D Out pb pl pr pt db dl dr Lay E1 E2 Dpb Dpl Dpr Dpt Harc).
  unfold files_to_include, printed_lines, archive_members.
  rewrite Epb, Epl, Epr, Ept. reflexivity.
Qed.

Lemma not_free_taken (s : state) (file : string) :
  ¬ destination_free s file →
  real_dst "archive" file ∈ dirs s ∨ is_Some (files s !! real_dst "archive" file).
Proof.
  unfold destination_free. intros Hn.
  destruct (decide (real_dst "archive" file ∈ dirs s)) as [?|Hd]; [now left|right].
  destruct (files s !! real_dst "archive" file) eqn:E; [eauto|]. exfalso. auto.
Qed.

(** *** Completed runs *)

(** X1.  With the three dimensions given, a run completes exactly when it is
    [ready]: the engine manages both differences, no directory sits where a
    scratch file or the tarball is written, [archive] is a directory or does
    not exist, and none of the three files has a namesake in [archive]. *)
Theorem run_completes_iff_ready (e : env) (L W H T O LH : float) (s : state) :
  temp_dir_ok (mkdtemp e) →
  contains_sep (repr L) = false → contains_sep (repr W) = false →
  contains_sep (repr H) = false →
  (∃ s', _default repr e (pargs.mk (Some L) (Some W) (Some H) T O LH) s = Ok tt s') ↔
  ready repr e L W H T O LH s.
Proof.
  intros Htmp CL CW CH. split.
  - intros [s' Hrun]. exact (complete_ready e L W H T O LH s s' Htmp CL CW CH Hrun).
  - intros Hr. exists (completed repr e L W H T O LH s). now apply ready_completes.
Qed.

(** X2.  The state a completed run leaves: the tarball with its three
    members and the three files themselves are in [archive], every file of
    the scratch directory is gone, [archive] is a directory, and three lines
    were printed, in the order base, lid, tarball. *)
Theorem completed_run_state (e : env) (L W H T O LH : float) (s s' : state) :
  temp_dir_ok (mkdtemp e) →
  contains_sep (repr L) = false → contains_sep (repr W) = false →
  contains_sep (repr H) = false →
  _default repr e (pargs.mk (Some L) (Some W) (Some H) T O LH) s = Ok tt s' →
  s' = completed repr e L W H T O LH s.
Proof.
  intros Htmp CL CW CH Hrun.
  pose proof (complete_ready e L W H T O LH s s' Htmp CL CW CH Hrun) as Hr.
  rewrite (ready_completes e L W H T O LH s Htmp CL CW CH Hr) in Hrun. congruence.
Qed.

(** X3.  A completed run touches nothing else: a file outside the scratch
    directory that is not the tarball or one of the three files in [archive]
    is as it was, and outside the scratch directory the only directory that
    can be new is [archive]. *)
Theorem completed_run_frame (e : env) (L W H T O LH : float) (s s' : state) (p : string) :
  temp_dir_ok (mkdtemp e) →
  contains_sep (repr L) = false → contains_sep (repr W) = false →
  contains_sep (repr H) = false →
  _default repr e (pargs.mk (Some L) (Some W) (Some H) T O LH) s = Ok tt s' →
  under (mkdtemp e) p = false →
  (p ∉ [ output_filename repr L W H;
         "archive/" +:+ fstring repr (base_filename_parts L W H);
         "archive/" +:+ fstring repr (lid_filename_parts L W H);
         "archive/README.txt"%string ] → files s' !! p = files s !! p) ∧
  (p ≠ "archive" → p ≠ mkdtemp e → (p ∈ dirs s' ↔ p ∈ dirs s)).
Proof.
  intros Htmp CL CW CH Hrun Up.
  pose proof (complete_ready e L W H T O LH s s' Htmp CL CW CH Hrun) as Hr.
  rewrite (ready_completes e L W H T O LH s Htmp CL CW CH Hr) in Hrun.
  injection Hrun as <-. unfold completed, outside, dirs_outside. cbn [files dirs]. split.
  - intros Hp. rewrite !not_elem_of_cons in Hp. destruct Hp as (? & ? & ? & ? & _).
    rewrite !lookup_insert_ne by congruence. now rewrite lookup_filter_under, Up.
  - intros Ha Ht. rewrite elem_of_union, elem_of_singleton, elem_of_filter. tauto.
Qed.

(** X4.  The script runs once: after a completed run, no later run with the
    three dimensions completes in the state it left, whatever the dimensions,
    the scratch directory and the engine: [archive/README.txt] is in the way
    of the last move at the latest. *)
Theorem rerun_never_completes (e e' : env) (L W H T O LH L' W' H' T' O' LH' : float)
    (s s' : state) :
  temp_dir_ok (mkdtemp e) →
  contains_sep (repr L) = false → contains_sep (repr W) = false →
  contains_sep (repr H) = false →
  temp_dir_ok (mkdtemp e') →
  contains_sep (repr L') = false → contains_sep (repr W') = false →
  contains_sep (repr H') = false →
  _default repr e (pargs.mk (Some L) (Some W) (Some H) T O LH) s = Ok tt s' →
  ∃ x s'', _default repr e' (pargs.mk (Some L') (Some W') (Some H') T' O' LH') s' =
           Raise x s''.
Proof.
  intros Htmp CL CW CH Htmp' CL' CW' CH' Hrun.
  pose proof (complete_ready e L W H T O LH s s' Htmp CL CW CH Hrun) as Hr.
  rewrite (ready_completes e L W H T O LH s Htmp CL CW CH Hr) in Hrun.
  injection Hrun as <-.
  destruct (_default repr e' _ _) as [u s''|x s''] eqn:Hrun'; [|eauto].
  exfalso. destruct u.
  apply (complete_ready e' L' W' H' T' O' LH' _ _ Htmp' CL' CW' CH') in Hrun'.
  destruct Hrun' as (_ & Hfree). unfold files_to_include in Hfree.
  apply Forall_cons in Hfree as [_ Hfree]. apply Forall_cons in Hfree as [_ Hfree].
  apply Forall_cons in Hfree as [[_ Hfree] _].
  destruct (paths_of_run _ L' W' H' Htmp' CL' CW' CH')
    as (pb & pl & pr & pt & db & dl & dr & Lay).
  destruct Lay as [_ _ Epr _ _ _ Edr _ _ Edr' _ _ _ _ _ _ _ _].
  rewrite Epr, Edr, <- Edr' in Hfree.
  unfold completed in Hfree. cbn [files] in Hfree.
  rewrite lookup_insert_eq in Hfree. discriminate.
Qed.

(** *** Runs that raise *)

(** X5.  When the base file has a namesake in [archive], the run raises
    [shutil.Error] at the first move, after the tarball was written: the
    tarball is there (a previous tarball of that name is overwritten),
    [archive] is otherwise as it was, the three lines were printed, and none
    of the three files was delivered, they went with the scratch directory. *)
Theorem first_move_blocked (e : env) (L W H T O LH : float) (s : state) :
  temp_dir_ok (mkdtemp e) →
  contains_sep (repr L) = false → contains_sep (repr W) = false →
  contains_sep (repr H) = false →
  packable repr e L W H T O LH s →
  path_exists s ("archive/" +:+ fstring repr (base_filename_parts L W H)) →
  _default repr e (pargs.mk (Some L) (Some W) (Some H) T O LH) s =
    Raise (ShutilError ("archive/" +:+ fstring repr (base_filename_parts L W H)))
      (State
         (<[output_filename repr L W H := TarGz (archive_members repr L W H T O LH)]>
            (outside (mkdtemp e) (files s)))
         ({["archive"]} ∪ dirs_outside (mkdtemp e) (dirs s))
         (stdout s ++ printed_lines repr (mkdtemp e) L W H)).
Proof.
  intros Htmp CL CW CH Hpack Htaken.
  destruct (paths_of_run _ L W H Htmp CL CW CH) as (pb & pl & pr & pt & db & dl & dr & Lay).
  rewrite (run_after_packing e L W H T O LH s pb pl pr pt db dl dr Lay Hpack).
  destruct Lay as [Epb Epl Epr Ept Edb Edl Edr Edb' Edl' Edr' Ept' Bb Bl Br
                   (Ub & Ul & Ur) (Upt & Udb & Udl & Udr & Uarc)
                   (Ppb & Ppl & Ppr & Ppt & Pdb & Pdl & Pdr) ND].
  rewrite Edb', Ept in *. nodup_facts ND. cbn [for_each].
  erewrite bind_raise;
    [|apply shutil_move_raise; cbn [files dirs]; rewrite ?Edb;
      [apply elem_of_union_l, elem_of_singleton; reflexivity
      |destruct Htaken as [Hin|Hf];
       [left; now apply elem_of_union_r, elem_of_union_r
       |right; now rewrite !lookup_insert_ne by congruence]]].
  rewrite Edb. unfold cleaned, rmtree, outside, dirs_outside. cbn [files dirs stdout].
  f_equal. f_equal.
  - rewrite filter_insert_outside by assumption.
    now rewrite !filter_insert_inside by assumption.
  - apply dirs_with_archive; [congruence|assumption].
Qed.

(** X6.  When only [README.txt] has a namesake in [archive] (a run with
    other dimensions left it there), the run raises [shutil.Error] at the
    last move: the tarball, the base and the lid are in [archive], and the
    [README.txt] found there is kept, not the new one. *)
Theorem stale_readme_blocks_last_move (e : env) (L W H T O LH : float) (s : state) :
  temp_dir_ok (mkdtemp e) →
  contains_sep (repr L) = false → contains_sep (repr W) = false →
  contains_sep (repr H) = false →
  packable repr e L W H T O LH s →
  destination_free s (join (mkdtemp e) (fstring repr (base_filename_parts L W H))) →
  destination_free s (join (mkdtemp e) (fstring repr (lid_filename_parts L W H))) →
  path_exists s "archive/README.txt" →
  _default repr e (pargs.mk (Some L) (Some W) (Some H) T O LH) s =
    Raise (ShutilError "archive/README.txt")
      (State
         (<["archive/" +:+ fstring repr (lid_filename_parts L W H) :=
              Stl (difference (lid_outer L W T O LH) (lid_inner L W T O LH))]>
            (<["archive/" +:+ fstring repr (base_filename_parts L W H) :=
                 Stl (difference (base_outer L W H T) (base_inner L W H T))]>
               (<[output_filename repr L W H := TarGz (archive_members repr L W H T O LH)]>
                  (outside (mkdtemp e) (files s)))))
         ({["archive"]} ∪ dirs_outside (mkdtemp e) (dirs s))
         (stdout s ++ printed_lines repr (mkdtemp e) L W H)).
Proof.
  intros Htmp CL CW CH Hpack [Ddb Fdb] [Ddl Fdl] Htaken.
  destruct (paths_of_run _ L W H Htmp CL CW CH) as (pb & pl & pr & pt & db & dl & dr & Lay).
  rewrite (run_after_packing e L W H T O LH s pb pl pr pt db dl dr Lay Hpack).
  destruct Lay as [Epb Epl Epr Ept Edb Edl Edr Edb' Edl' Edr' Ept' Bb Bl Br
                   (Ub & Ul & Ur) (Upt & Udb & Udl & Udr & Uarc)
                   (Ppb & Ppl & Ppr & Ppt & Pdb & Pdl & Pdr) ND].
  rewrite Epb, Edb in Ddb, Fdb. rewrite Epl, Edl in Ddl, Fdl.
  rewrite Edb', Edl', Edr', Ept in *.
  set (base := Stl (difference (base_outer L W H T) (base_inner L W H T))) in *.
  set (lid := Stl (difference (lid_outer L W T O LH) (lid_inner L W T O LH))) in *.
  set (readme := Text (manifest_text repr L W H T O LH)) in *.
  set (tar := TarGz (archive_members repr L W H T O LH)).
  set (tmp := mkdtemp e) in *.
  clearbody base lid readme tar.
  nodup_facts ND.
  assert (Harc_in : ∀ X : gset string, "archive" ∈ {["archive"]} ∪ X)
    by (intros X; apply elem_of_union_l, elem_of_singleton; reflexivity).
  assert (Hnd : ∀ p, p ≠ "archive" → p ≠ tmp → p ∉ dirs s →
                  p ∉ ({["archive"]} ∪ ({[tmp]} ∪ dirs s) : gset string))
    by (intros p ? ? ?; apply not_in_archive_dirs; [assumption|now apply not_in_scratch_dirs]).
  cbn [for_each].
  erewrite bind_run;
    [|apply (shutil_move_run _ _ base); cbn [files dirs]; rewrite ?Edb, ?Pdb;
      [apply Harc_in
      |rewrite !lookup_insert_ne by congruence; apply lookup_insert_eq
      |now apply Hnd
      |now rewrite !lookup_insert_ne by congruence
      |apply Harc_in]].
  unfold set_files. cbn [files dirs stdout].
  erewrite bind_run;
    [|apply (shutil_move_run _ _ lid); cbn [files dirs]; rewrite ?Edl, ?Pdl;
      [apply Harc_in
      |rewrite lookup_insert_ne, lookup_delete_ne, !lookup_insert_ne by congruence;
       apply lookup_insert_eq
      |now apply Hnd
      |now rewrite lookup_insert_ne, lookup_delete_ne, !lookup_insert_ne by congruence
      |apply Harc_in]].
  unfold set_files. cbn [files dirs stdout].
  erewrite bind_raise;
    [|apply shutil_move_raise; cbn [files dirs]; rewrite ?Edr;
      [apply Harc_in
      |destruct Htaken as [Hin|Hf];
       [left; now apply elem_of_union_r, elem_of_union_r
       |right;
        now rewrite lookup_insert_ne, lookup_delete_ne, lookup_insert_ne, lookup_delete_ne,
          !lookup_insert_ne by congruence]]].
  rewrite Edb, Edl, Edr. unfold cleaned, rmtree, outside, dirs_outside.
  cbn [files dirs stdout]. f_equal. f_equal.
  - rewrite filter_insert_outside by assumption.
    rewrite filter_delete_inside by assumption.
    rewrite filter_insert_outside by assumption.
    rewrite filter_delete_inside by assumption.
    rewrite filter_insert_outside by assumption.
    now rewrite !filter_insert_inside by assumption.
  - apply dirs_with_archive; [congruence|assumption].
Qed.

(** X7.  When the boolean engine fails, for the base or, the base written,
    for the lid, the run raises the engine's error: nothing was printed, no
    [archive] directory was made, and apart from the scratch directory's
    removal no file or directory changed. *)
Theorem engine_failure_leaves_nothing (e : env) (L W H T O LH : float) (s : state) :
  temp_dir_ok (mkdtemp e) →
  contains_sep (repr L) = false → contains_sep (repr W) = false →
  contains_sep (repr H) = false →
  engine_ok e (base_outer L W H T) (base_inner L W H T) = false ∨
  (engine_ok e (lid_outer L W T O LH) (lid_inner L W T O LH) = false ∧
   join (mkdtemp e) (fstring repr (base_filename_parts L W H)) ∉ dirs s) →
  _default repr e (pargs.mk (Some L) (Some W) (Some H) T O LH) s =
    Raise EngineError
      (State (outside (mkdtemp e) (files s)) (dirs_outside (mkdtemp e) (dirs s)) (stdout s)).
Proof.
  intros Htmp CL CW CH Hfail.
  destruct (paths_of_run _ L W H Htmp CL CW CH) as (pb & pl & pr & pt & db & dl & dr & Lay).
  destruct Lay as [Epb Epl Epr Ept Edb Edl Edr Edb' Edl' Edr' Ept' Bb Bl Br
                   (Ub & Ul & Ur) (Upt & Udb & Udl & Udr & Uarc)
                   (Ppb & Ppl & Ppr & Ppt & Pdb & Pdl & Pdr) ND].
  unfold _default. cbn [pargs.length pargs.width pargs.height pargs.thickness
                        pargs.overlap pargs.lid_height].
  cbv zeta. unfold with_TemporaryDirectory. cbv zeta.
  unfold outside, dirs_outside.
  destruct (engine_ok e (base_outer L W H T) (base_inner L W H T)) eqn:E1.
  - destruct Hfail as [?|[E2 Dpb]]; [discriminate|]. rewrite Epb in Dpb.
    nodup_facts ND.
    erewrite bind_raise;
      [|unfold create_full_box_with_lid; cbv zeta;
        erewrite bind_run; [|unfold mesh_difference; rewrite E1; reflexivity];
        erewrite bind_run;
          [|apply write_file_run, creatable_spec; cbn [dirs]; rewrite Epb;
            split; [now apply not_in_scratch_dirs
                   |right; rewrite Ppb; apply elem_of_union_l, elem_of_singleton; reflexivity]];
        erewrite bind_raise; [reflexivity|];
        unfold mesh_difference; rewrite E2; reflexivity].
    unfold rmtree, set_files. cbn [files dirs stdout]. f_equal. f_equal.
    + rewrite Epb. now apply filter_insert_inside.
    + apply dirs_without_scratch.
  - erewrite bind_raise;
      [|unfold create_full_box_with_lid; cbv zeta;
        erewrite bind_raise; [reflexivity|];
        unfold mesh_difference; rewrite E1; reflexivity].
    unfold rmtree. cbn [files dirs stdout]. f_equal. f_equal. apply dirs_without_scratch.
Qed.

(** X8.  When [archive] exists but is a regular file, [os.makedirs] is
    skipped and opening the tarball raises [OSError]: the two meshes were
    exported and announced, and they and the manifest went with the scratch
    directory; no file outside it changed. *)
Theorem archive_not_a_directory (e : env) (L W H T O LH : float) (s : state) :
  temp_dir_ok (mkdtemp e) →
  contains_sep (repr L) = false → contains_sep (repr W) = false →
  contains_sep (repr H) = false →
  engine_ok e (base_outer L W H T) (base_inner L W H T) = true →
  engine_ok e (lid_outer L W T O LH) (lid_inner L W T O LH) = true →
  Forall (λ p, p ∉ dirs s) (files_to_include repr (mkdtemp e) L W H) →
  "archive" ∉ dirs s → is_Some (files s !! "archive") →
  _default repr e (pargs.mk (Some L) (Some W) (Some H) T O LH) s =
    Raise (OSError (output_filename repr L W H))
      (State (outside (mkdtemp e) (files s)) (dirs_outside (mkdtemp e) (dirs s))
         (stdout s ++
          [ fstring repr [lit "Exported box base to ";
                          str (join (mkdtemp e) (fstring repr (base_filename_parts L W H)))];
            fstring repr [lit "Exported box lid to ";
                          str (join (mkdtemp e) (fstring repr (lid_filename_parts L W H)))] ])).
Proof.
  intros Htmp CL CW CH E1 E2 Hd Darc Farc.
  destruct (paths_of_run _ L W H Htmp CL CW CH) as (pb & pl & pr & pt & db & dl & dr & Lay).
  destruct Lay as [Epb Epl Epr Ept Edb Edl Edr Edb' Edl' Edr' Ept' Bb Bl Br
                   (Ub & Ul & Ur) (Upt & Udb & Udl & Udr & Uarc)
                   (Ppb & Ppl & Ppr & Ppt & Pdb & Pdl & Pdr) ND].
  unfold _default. cbn [pargs.length pargs.width pargs.height pargs.thickness
                        pargs.overlap pargs.lid_height].
  cbv zeta. unfold with_TemporaryDirectory. cbv zeta.
  fold (output_filename repr L W H).
  unfold files_to_include in Hd.
  destruct s as [F D Out]. cbn [files dirs stdout] in *.
  set (tmp := mkdtemp e) in *.
  pose proof (create_full_box_with_lid_run e tmp L W H T O LH
                (State F ({[tmp]} ∪ D) Out) E1 E2) as HA.
  cbv zeta in HA. cbn [files dirs stdout] in HA.
  rewrite ?Epb, ?Epl, ?Epr, ?Ept in *.
  apply Forall_cons in Hd as [Dpb Hd]. apply Forall_cons in Hd as [Dpl Hd].
  apply Forall_cons in Hd as [Dpr _].
  set (base := Stl (difference (base_outer L W H T) (base_inner L W H T))) in *.
  set (lid := Stl (difference (lid_outer L W T O LH) (lid_inner L W T O LH))) in *.
  clearbody base lid.
  nodup_facts ND.
  assert (Htmp_in : ∀ X : gset string, tmp ∈ {[tmp]} ∪ X)
    by (intros X; apply elem_of_union_l, elem_of_singleton; reflexivity).
  erewrite bind_run;
    [|apply HA; apply creatable_spec;
      (split; [now apply not_in_scratch_dirs|right; cbn [dirs]; rewrite ?Ppb, ?Ppl; apply Htmp_in])].
  clear HA.
  erewrite bind_run;
    [|apply write_file_run, creatable_spec; cbn [dirs];
      (split; [now apply not_in_scratch_dirs|right; rewrite Ppr; apply Htmp_in])].
  erewrite bind_run; [|apply (write_lines_run _ _ _ EmptyString); apply lookup_insert_eq].
  unfold set_files. cbn [files dirs stdout]. rewrite insert_insert_eq.
  set (readme := Text _). clearbody readme.
  unfold bind at 1, os_path_exists. cbn [files dirs].
  rewrite (bool_decide_eq_true_2 (is_Some _))
    by (now rewrite !lookup_insert_ne by congruence).
  rewrite orb_true_r. unfold bind at 1, ret.
  erewrite bind_raise;
    [|unfold create_tar_gz; erewrite bind_raise; [reflexivity|];
      unfold tarfile_open, write_file;
      assert (C : creatable pt
                    (State (<[pr:=readme]> (<[pl:=lid]> (<[pb:=base]> F))) ({[tmp]} ∪ D)
                       (Out ++ [fstring repr [lit "Exported box base to "; str pb];
                                fstring repr [lit "Exported box lid to "; str pl]])) = false);
      [|rewrite C; reflexivity];
      apply not_true_is_false; intros [_ [Hp|Hp]]%creatable_spec; cbn [dirs] in Hp;
      rewrite Ppt in Hp; [discriminate|];
      apply elem_of_union in Hp as [Hp%elem_of_singleton|Hp]; [congruence|contradiction]].
  unfold rmtree, outside, dirs_outside. cbn [files dirs stdout]. f_equal. f_equal.
  - now rewrite !filter_insert_inside by assumption.
  - apply dirs_without_scratch.
Qed.

(** *** The two functions on their own *)





(** X11.  [create_full_box_with_lid] returns whenever the engine manages
    both differences and the target directory exists, with no directory at
    either file's place: the base and the lid are written there, nothing else
    changes, and the two paths are printed, base first. *)
Theorem create_full_box_with_lid_exports (e : env) (tmpdirname : string)
    (L W H T O LH : float) (s : state) :
  tmpdirname ≠ EmptyString → endswith_sep tmpdirname = false →
  contains_sep (repr L) = false → contains_sep (repr W) = false →
  contains_sep (repr H) = false →
  engine_ok e (base_outer L W H T) (base_inner L W H T) = true →
  engine_ok e (lid_outer L W T O LH) (lid_inner L W T O LH) = true →
  tmpdirname ∈ dirs s →
  tmpdirname +:+ "/" +:+ fstring repr (base_filename_parts L W H) ∉ dirs s →
  tmpdirname +:+ "/" +:+ fstring repr (lid_filename_parts L W H) ∉ dirs s →
  create_full_box_with_lid repr e tmpdirname L W H T O LH s =
    Ok tt
      (State
         (<[tmpdirname +:+ "/" +:+ fstring repr (lid_filename_parts L W H) :=
              Stl (difference (lid_outer L W T O LH) (lid_inner L W T O LH))]>
            (<[tmpdirname +:+ "/" +:+ fstring repr (base_filename_parts L W H) :=
                 Stl (difference (base_outer L W H T) (base_inner L W H T))]>
               (files s)))
         (dirs s)
         (stdout s ++
          [ "Exported box base to " +:+ tmpdirname +:+ "/" +:+
              fstring repr (base_filename_parts L W H);
            "Exported box lid to " +:+ tmpdirname +:+ "/" +:+
              fstring repr (lid_filename_parts L W H) ])).
Proof.
  intros Hne Hend CL CW CH E1 E2 Hdir Db Dl.
  assert (Cb : contains_sep (fstring repr (base_filename_parts L W H)) = false)
    by (rewrite base_filename_eq, !contains_sep_app, CL, CW, CH; reflexivity).
  assert (Cl : contains_sep (fstring repr (lid_filename_parts L W H)) = false)
    by (rewrite lid_filename_eq, !contains_sep_app, CL, CW, CH; reflexivity).
  pose proof (create_full_box_with_lid_run e tmpdirname L W H T O LH s E1 E2) as Hrun.
  cbv zeta in Hrun.
  rewrite !(join_plain tmpdirname) in Hrun by (try apply no_sep_startswith; assumption).
  rewrite Hrun.
  - cbn [fstring fpart_text]. now rewrite !append_nil_r.
  - apply creatable_spec. split; [exact Db|right]. now rewrite dirname_app.
  - apply creatable_spec. split; [exact Dl|right]. now rewrite dirname_app.
Qed.

End More.

Section Envelopes.
#[local] Open Scope float_scope.

(** X12.  For a wall thickness and an overlap that are positive and finite,
    and stay finite when doubled, no outer box is smaller than what it has
    to hold, in binary64 arithmetic: the base's outer box is in no extent
    less than its cavity (L, W, H), and the lid's outer box is horizontally
    not less than the base's. *)
Theorem outer_boxes_not_smaller (L W H T O : float)
    (mT m2T m2O : positive) (eT e2T e2O : Z) :
  Prim2SF T = S754_finite false mT eT →
  Prim2SF (2 * T) = S754_finite false m2T e2T →
  Prim2SF (2 * O) = S754_finite false m2O e2O →
  (external_length L T <? L) = false ∧
  (external_width W T <? W) = false ∧
  (base_height H T <? H) = false ∧
  (lid_external_length L T O <? external_length L T) = false ∧
  (lid_external_width W T O <? external_width W T) = false.
Proof.
  intros HT H2T H2O.
  unfold lid_external_length, lid_external_width, external_length, external_width, base_height.
  repeat split; eapply add_pos_not_ltb; eassumption.
Qed.

End Envelopes.

(** *** The further scenarios, evaluated *)

Section FurtherScenarios.
#[local] Open Scope float_scope.

Ltac decide_now := apply (bool_decide_unpack _); vm_compute; exact I.

Lemma other_temp_dir : temp_dir_ok (mkdtemp other_env).
Proof. split; reflexivity. Qed.

Lemma scenario_final_packable (e : env) (L W H : float) :
  engine_ok e = (λ _ _, true) →
  Forall (λ p, p ∉ dirs scenario_final)
    (output_filename repr_integral L W H :: files_to_include repr_integral (mkdtemp e) L W H) →
  packable repr_integral e L W H 2 2 5 scenario_final.
Proof.
  intros He Hd. unfold packable. rewrite He. repeat split; [exact Hd|left; decide_now].
Qed.

Lemma run_completes_iff_ready_witness :
  ready repr_integral sample_env 100 80 50 2 2 5 empty_state.
Proof.
  exact (proj1 (run_completes_iff_ready repr_integral sample_env 100 80 50 2 2 5 empty_state
                  scenario_temp_dir eq_refl eq_refl eq_refl)
           (ex_intro _ scenario_final scenario_completes)).
Defined.

Lemma completed_run_state_witness :
  scenario_final = completed repr_integral sample_env 100 80 50 2 2 5 empty_state.
Proof.
  exact (completed_run_state repr_integral sample_env 100 80 50 2 2 5 empty_state
           scenario_final scenario_temp_dir eq_refl eq_refl eq_refl scenario_completes).
Defined.

Lemma completed_run_frame_witness :
  files other_final !! "notes.txt"%string = files other_state !! "notes.txt"%string ∧
  ("notes.txt"%string ∈ dirs other_final ↔ "notes.txt"%string ∈ dirs other_state).
Proof.
  destruct (completed_run_frame repr_integral other_env 100 80 50 2 2 5 other_state
              other_final "notes.txt" other_temp_dir eq_refl eq_refl eq_refl
              other_completes eq_refl) as [Hf Hd].
  split; [apply Hf; decide_now|apply Hd; discriminate].
Defined.

Lemma rerun_never_completes_witness :
  ∃ x s'',
    _default repr_integral other_env (pargs.mk (Some 10) (Some 20) (Some 30) 2 2 5)
      scenario_final = Raise x s''.
Proof.
  exact (rerun_never_completes repr_integral sample_env other_env 100 80 50 2 2 5
           10 20 30 2 2 5 empty_state scenario_final
           scenario_temp_dir eq_refl eq_refl eq_refl
           other_temp_dir eq_refl eq_refl eq_refl scenario_completes).
Defined.

Lemma first_move_blocked_witness :
  _default repr_integral sample_env (pargs.mk (Some 100) (Some 80) (Some 50) 2 2 5)
    scenario_final =
  Raise (ShutilError "archive/box_base_100.0x80.0x50.0.stl")
    (State
       (<[output_filename repr_integral 100 80 50 :=
            TarGz (archive_members repr_integral 100 80 50 2 2 5)]>
          (outside "/tmp/tmpbox" (files scenario_final)))
       ({["archive"%string]} ∪ dirs_outside "/tmp/tmpbox" (dirs scenario_final))
       (stdout scenario_final ++ printed_lines repr_integral "/tmp/tmpbox" 100 80 50)).
Proof.
  apply (first_move_blocked repr_integral sample_env 100 80 50 2 2 5 scenario_final
           scenario_temp_dir eq_refl eq_refl eq_refl).
  - apply scenario_final_packable; [reflexivity|]. repeat constructor; decide_now.
  - right. decide_now.
Defined.

Lemma stale_readme_blocks_last_move_witness :
  _default repr_integral other_env (pargs.mk (Some 10) (Some 20) (Some 30) 2 2 5)
    scenario_final =
  Raise (ShutilError "archive/README.txt")
    (State
       (<["archive/box_lid_10.0x20.0x30.0.stl"%string :=
            Stl (difference (lid_outer 10 20 2 2 5) (lid_inner 10 20 2 2 5))]>
          (<["archive/box_base_10.0x20.0x30.0.stl"%string :=
               Stl (difference (base_outer 10 20 30 2) (base_inner 10 20 30 2))]>
             (<[output_filename repr_integral 10 20 30 :=
                  TarGz (archive_members repr_integral 10 20 30 2 2 5)]>
                (outside "/var/tmp/scratch" (files scenario_final)))))
       ({["archive"%string]} ∪ dirs_outside "/var/tmp/scratch" (dirs scenario_final))
       (stdout scenario_final ++ printed_lines repr_integral "/var/tmp/scratch" 10 20 30)).
Proof.
  apply (stale_readme_blocks_last_move repr_integral other_env 10 20 30 2 2 5 scenario_final
           other_temp_dir eq_refl eq_refl eq_refl).
  - apply scenario_final_packable; [reflexivity|]. repeat constructor; decide_now.
  - split; [decide_now|vm_compute; reflexivity].
  - split; [decide_now|vm_compute; reflexivity].
  - right. decide_now.
Defined.

Lemma engine_failure_leaves_nothing_witness :
  _default repr_integral failing_env (pargs.mk (Some 100) (Some 80) (Some 50) 2 2 5)
    other_state =
  Raise EngineError
    (State (outside "/tmp/tmpbox" (files other_state))
       (dirs_outside "/tmp/tmpbox" (dirs other_state)) ["booted"%string]).
Proof.
  exact (engine_failure_leaves_nothing repr_integral failing_env 100 80 50 2 2 5 other_state
           scenario_temp_dir eq_refl eq_refl eq_refl (or_introl eq_refl)).
Defined.

Lemma archive_not_a_directory_witness :
  _default repr_integral sample_env (pargs.mk (Some 100) (Some 80) (Some 50) 2 2 5)
    archive_file_state =
  Raise (OSError "archive/box_100.0x80.0x50.0.tar.gz")
    (State (outside "/tmp/tmpbox" (files archive_file_state))
       (dirs_outside "/tmp/tmpbox" (dirs archive_file_state))
       [ "Exported box base to /tmp/tmpbox/box_base_100.0x80.0x50.0.stl"%string;
         "Exported box lid to /tmp/tmpbox/box_lid_100.0x80.0x50.0.stl"%string ]).
Proof.
  apply (archive_not_a_directory repr_integral sample_env 100 80 50 2 2 5 archive_file_state
           scenario_temp_dir eq_refl eq_refl eq_refl eq_refl eq_refl).
  - repeat constructor; decide_now.
  - decide_now.
  - decide_now.
Defined.



Lemma create_full_box_with_lid_exports_witness :
  create_full_box_with_lid repr_integral sample_env "/tmp/tmpbox" 100 80 50 2 2 5
    scratch_state =
  Ok tt
    (State
       (<["/tmp/tmpbox/box_lid_100.0x80.0x50.0.stl"%string :=
            Stl (difference (lid_outer 100 80 2 2 5) (lid_inner 100 80 2 2 5))]>
          (<["/tmp/tmpbox/box_base_100.0x80.0x50.0.stl"%string :=
               Stl (difference (base_outer 100 80 50 2) (base_inner 100 80 50 2))]> ∅))
       {["/tmp/tmpbox"%string]}
       [ "Exported box base to /tmp/tmpbox/box_base_100.0x80.0x50.0.stl"%string;
         "Exported box lid to /tmp/tmpbox/box_lid_100.0x80.0x50.0.stl"%string ]).
Proof.
  apply (create_full_box_with_lid_exports repr_integral sample_env "/tmp/tmpbox"
           100 80 50 2 2 5 scratch_state);
    first [discriminate|reflexivity|decide_now].
Defined.

Lemma outer_boxes_not_smaller_witness :
  (external_length 100 2 <? 100) = false ∧
  (external_width 80 2 <? 80) = false ∧
  (base_height 50 2 <? 50) = false ∧
  (lid_external_length 100 2 2 <? external_length 100 2) = false ∧
  (lid_external_width 80 2 2 <? external_width 80 2) = false.
Proof.
  exact (outer_boxes_not_smaller 100 80 50 2 2 _ _ _ _ _ _ eq_refl eq_refl eq_refl).
Defined.

End FurtherScenarios.
